(** * Entitlement and download authorisation of the OTA-update backend

    A shallow embedding of
      - [supabase/functions/_backend/utils/supabase.ts]
        (rights lookup, quota read-outs, organisation flags, segment
        computation, plan-name resolution), and
      - [supabase/functions/_backend/private/download_link.ts]
        (the POST handler that issues a bundle download link).

    The TypeScript code is asynchronous and talks to an external store
    through the supabase client.  Awaiting a query of that client does not
    reject: the client answers with an object [{ data, error }], unless
    [.throwOnError()] was requested.  The embedding therefore has
      - [Response]: the [{ data, error }] object, both fields nullable;
      - [Backend]: one answer function per remote operation the code uses;
      - [Eff]: a small monad of computations that either complete normally
        or throw, and that record the remote calls they issued, in order.
    Console output is not modelled. *)

From Stdlib Require Import String Ascii List Bool PrimFloat.
From Stdlib Require Import Arith Lia.
Import ListNotations.

Open Scope string_scope.
Open Scope list_scope.

(** ** JavaScript values *)

(** A JavaScript [number] is an IEEE-754 binary64 value. *)
Definition number : Type := float.

(** The error object of a failed store call; the code reads [message]. *)
Record PostgrestError : Type := {
  message : string;
  details : string;
  hint : string;
  code : string
}.

(** Values that the code can see thrown. *)
Inductive JsError : Type :=
| TypeError (property : string)
    (* a [TypeError] of the runtime: reading [property] of [undefined] or
       [null]; also the one of [JSON.stringify] on a value it rejects *)
| Error (msg : string)
    (* [new Error(msg)] *)
| PostgrestThrown (e : PostgrestError)
    (* the error object rethrown by [.throwOnError()] *)
| Rejection (reason : string)
    (* a value thrown by an external collaborator that [JSON.stringify]
       accepts *)
| SyntaxError (msg : string)
    (* thrown by [c.req.json()] on a body that is not JSON *)
| Unserialisable (what : string).
    (* a value thrown by an external collaborator that [JSON.stringify]
       rejects: a circular structure, a [BigInt] *)

(** Whether [JSON.stringify(e)] returns; it throws a [TypeError]
    otherwise.  The error objects serialise (as an empty object, their
    properties not being enumerable). *)
Definition serialisable (e : JsError) : bool :=
  match e with
  | Unserialisable _ => false
  | _ => true
  end.

(** [!s] for [s : string | undefined]. *)
Definition not_str (s : option string) : bool :=
  match s with
  | None => true
  | Some "" => true
  | Some _ => false
  end.

(** [data || false] for [data : boolean | null]. *)
Definition or_false (data : option bool) : bool :=
  match data with
  | Some true => true
  | _ => false
  end.

(** Truthiness of a [number]: [0], [-0] and [NaN] are falsy. *)
Definition truthy_number (x : number) : bool :=
  negb (PrimFloat.eqb x 0%float || PrimFloat.is_nan x).

(** [data || 0] for [data : number | null]. *)
Definition or_zero (data : option number) : number :=
  match data with
  | Some x => if truthy_number x then x else 0%float
  | None => 0%float
  end.

(** [data || dflt] for [data : string | null]. *)
Definition or_string (data : option string) (dflt : string) : string :=
  match data with
  | Some "" => dflt
  | Some s => s
  | None => dflt
  end.

(** [s.split(sep)] for a non-empty separator: [skip] counts the characters
    of a separator occurrence still to be passed over, [cur] is the piece
    being read. *)
Fixpoint split_go (sep s : string) (skip : nat) (cur : string) : list string :=
  match s with
  | EmptyString => [cur]
  | String ch rest =>
      match skip with
      | S k => split_go sep rest k cur
      | O =>
          if String.prefix sep s
          then cur :: split_go sep rest (String.length sep - 1) ""
          else split_go sep rest 0 (cur ++ String ch "")
      end
  end.

Definition split (s sep : string) : list string := split_go sep s 0 "".

(** ** The store client *)

(** The [{ data, error }] object a store call answers with. *)
Record Response (A : Type) : Type := {
  data : option A;
  error : option PostgrestError
}.
Arguments data {A} _.
Arguments error {A} _.
Arguments Build_Response {A} _ _.

(** Modelled from the spec: the enum [user_min_right], declared in
    [supabase.types.ts], a file outside the two embedded here; the spec
    gives the ordered capability read < upload < write < admin. *)
Inductive user_min_right : Type := read | upload | write | admin.

Definition right_name (r : user_min_right) : string :=
  match r with
  | read => "read"
  | upload => "upload"
  | write => "write"
  | admin => "admin"
  end.

(** The row of [app_versions] joined with [owner_org ( created_by )]. *)
Module OwnerOrg.
Record t : Type := { created_by : option string }.
End OwnerOrg.

Module Bundle.
Record t : Type := {
  id : number;
  app_id : string;
  name : string;
  owner_org : option OwnerOrg.t
}.
End Bundle.

(** The answer of [auth.getUser]. *)
Module User.
Record t : Type := { id : string }.
End User.

Module Auth.
Record t : Type := { user : option User.t }.
End Auth.

(** Quota read-outs. *)
Record PlanTotal : Type := {
  mau : number;
  bandwidth : number;
  storage : number;
  get : number;
  fail : number;
  install : number;
  uninstall : number
}.

Record PlanUsage : Type := {
  total_percent : number;
  mau_percent : number;
  bandwidth_percent : number;
  storage_percent : number
}.

(** The columns of a [plans] row that the code reads. *)
Module Plan.
Record t : Type := {
  name : string;
  price_m_id : string
}.
End Plan.

(** What [getBundleUrl] resolves to when it is not null. *)
Module UrlData.
Record t : Type := { url : string }.
End UrlData.

(** A computation completes normally with a value, or throws. *)
Inductive Completion (A : Type) : Type :=
| Normal (value : A)
| Throw (e : JsError).
Arguments Normal {A} _.
Arguments Throw {A} _.

(** The remote operations of the store client.  The last three are the
    table writes of the client ([insert], [upsert], [update]), which
    [supabase.ts] uses in its usage recorders ([trackLogsSB],
    [trackDevicesSB], ...) and in [createStripeCustomer]. *)
Inductive Call : Type :=
| auth_getUser (jwt : option string)
| rpc (fn : string) (params : list (string * string))
| from_app_versions_single (app_id : string) (id : number)
| getBundleUrl (ownerOrg : string) (bundle : Bundle.t)
| from_insert (table : string)
| from_upsert (table : string)
| from_update (table : string).

Definition mutates (c : Call) : bool :=
  match c with
  | from_insert _ | from_upsert _ | from_update _ => true
  | _ => false
  end.

(** The answers of the external collaborators: the identity provider, the
    store and the URL signer. *)
Record Backend : Type := {
  getUser : option string -> Response Auth.t;
  has_app_right_userid : string -> user_min_right -> string -> Response bool;
  get_total_metrics : string -> Response PlanTotal;
  get_plan_usage_percent_detailed : string -> Response PlanUsage;
  is_good_plan_v5_org : string -> Response bool;
  is_onboarded_org : string -> Response bool;
  is_canceled_org : string -> Response bool;
  is_paying_org : string -> Response bool;
  is_trial_org : string -> Response number;
  get_current_plan_name_org : string -> Response string;
  app_versions_single : string -> number -> Response Bundle.t;
  (* Modelled from the spec: [getBundleUrl] of [utils/downloadUrl.ts], a
     file outside the two embedded here; the spec gives the URL signer as
     (org id, bundle) -> time-bound URL, with a failure of its own. *)
  bundle_url : string -> Bundle.t -> Completion (option UrlData.t)
}.

(** ** Computations *)

Definition Eff (A : Type) : Type := (Completion A * list Call)%type.

Definition ret {A : Type} (a : A) : Eff A := (Normal a, []).

Definition throw {A : Type} (e : JsError) : Eff A := (Throw e, []).

Definition bind {A B : Type} (m : Eff A) (k : A -> Eff B) : Eff B :=
  match m with
  | (Normal a, calls) => let (r, calls') := k a in (r, calls ++ calls')
  | (Throw e, calls) => (Throw e, calls)
  end.

(** [try { body } catch (e) { handler }] *)
Definition try_catch {A : Type} (body : Eff A) (handler : JsError -> Eff A)
  : Eff A :=
  match body with
  | (Normal a, calls) => (Normal a, calls)
  | (Throw e, calls) => let (r, calls') := handler e in (r, calls ++ calls')
  end.

(** Awaiting a remote operation: it is recorded and its answer returned. *)
Definition await {A : Type} (c : Call) (answer : A) : Eff A :=
  (Normal answer, [c]).

(** Awaiting a collaborator that can reject. *)
Definition await_or_reject {A : Type} (c : Call) (answer : Completion A)
  : Eff A :=
  (answer, [c]).

(** [.throwOnError()]: a reported error is thrown instead of returned. *)
Definition throwOnError {A : Type} (r : Response A) : Eff (Response A) :=
  match error r with
  | Some e => throw (PostgrestThrown e)
  | None => ret r
  end.

(** Awaiting a promise of the runtime itself, without a remote call: it
    resolves, or rejects with the value thrown. *)
Definition settle {A : Type} (answer : Completion A) : Eff A :=
  (answer, []).

Definition result {A : Type} (m : Eff A) : Completion A := fst m.
Definition calls {A : Type} (m : Eff A) : list Call := snd m.

Declare Scope eff_scope.
Delimit Scope eff_scope with eff.
Notation "x <- m ;; k" := (bind m (fun x => k))
  (at level 61, m at next level, right associativity) : eff_scope.
Notation "m ;;; k" := (bind m (fun _ => k))
  (at level 61, right associativity) : eff_scope.
Open Scope eff_scope.

(** ** utils/supabase.ts *)

Definition hasAppRight (c : Backend) (appId : option string) (userid : string)
    (right : user_min_right) : Eff (option bool) :=
  match appId with
  | None => ret (Some false)
  | Some "" => ret (Some false)
  | Some appId =>
      r <- await
             (rpc "has_app_right_userid"
                [("appid", appId); ("right", right_name right);
                 ("userid", userid)])
             (has_app_right_userid c appId right userid) ;;
      match error r with
      | Some _ => ret (Some false)
      | None => ret (data r)
      end
  end.

Definition zeroPlanTotal : PlanTotal :=
  {| mau := 0%float; bandwidth := 0%float; storage := 0%float;
     get := 0%float; fail := 0%float; install := 0%float;
     uninstall := 0%float |}.

Definition getTotalStats (c : Backend) (orgId : option string)
  : Eff (option PlanTotal) :=
  match orgId with
  | None => ret (Some zeroPlanTotal)
  | Some "" => ret (Some zeroPlanTotal)
  | Some orgId =>
      r <- await (rpc "get_total_metrics" [("org_id", orgId)])
             (get_total_metrics c orgId) ;;
      match error r with
      | Some e => throw (Error (message e))
      | None => ret (data r)
      end
  end.

Definition zeroPlanUsage : PlanUsage :=
  {| total_percent := 0%float; mau_percent := 0%float;
     bandwidth_percent := 0%float; storage_percent := 0%float |}.

Definition getPlanUsagePercent (c : Backend) (orgId : option string)
  : Eff (option PlanUsage) :=
  match orgId with
  | None => ret (Some zeroPlanUsage)
  | Some "" => ret (Some zeroPlanUsage)
  | Some orgId =>
      r <- await (rpc "get_plan_usage_percent_detailed" [("orgid", orgId)])
             (get_plan_usage_percent_detailed c orgId) ;;
      match error r with
      | Some e => throw (Error (message e))
      | None => ret (data r)
      end
  end.

Definition isGoodPlanOrg (c : Backend) (orgId : string) : Eff bool :=
  try_catch
    (r <- await (rpc "is_good_plan_v5_org" [("orgid", orgId)])
            (is_good_plan_v5_org c orgId) ;;
     r <- throwOnError r ;;
     ret (or_false (data r)))
    (fun _ => ret false).

Definition isOnboardedOrg (c : Backend) (orgId : string) : Eff bool :=
  try_catch
    (r <- await (rpc "is_onboarded_org" [("orgid", orgId)])
            (is_onboarded_org c orgId) ;;
     r <- throwOnError r ;;
     ret (or_false (data r)))
    (fun _ => ret false).

Definition isCanceledOrg (c : Backend) (orgId : string) : Eff bool :=
  try_catch
    (r <- await (rpc "is_canceled_org" [("orgid", orgId)])
            (is_canceled_org c orgId) ;;
     r <- throwOnError r ;;
     ret (or_false (data r)))
    (fun _ => ret false).

Definition isPayingOrg (c : Backend) (orgId : string) : Eff bool :=
  try_catch
    (r <- await (rpc "is_paying_org" [("orgid", orgId)])
            (is_paying_org c orgId) ;;
     r <- throwOnError r ;;
     ret (or_false (data r)))
    (fun _ => ret false).

Definition isTrialOrg (c : Backend) (orgId : string) : Eff number :=
  try_catch
    (r <- await (rpc "is_trial_org" [("orgid", orgId)])
            (is_trial_org c orgId) ;;
     r <- throwOnError r ;;
     ret (or_zero (data r)))
    (fun _ => ret 0%float).

(** The object of segment flags ([Segments] of [utils/plunk.ts]); its
    properties are those of the object literal in [customerToSegmentOrg],
    in the order they are written there. *)
Record Segments : Type := {
  capgo : bool;
  onboarded : bool;
  trial : bool;
  trial7 : bool;
  trial1 : bool;
  trial0 : bool;
  paying : bool;
  payingMonthly : bool;
  plan : string;
  overuse : bool;
  canceled : bool;
  issueSegment : bool
}.

(** Property assignments [segmentsObj.<key> = v]. *)
Definition set_trial (v : bool) (o : Segments) : Segments :=
  let (a, b, _, d, e, f, g, h, i, j, k, l) := o in
  Build_Segments a b v d e f g h i j k l.
Definition set_trial7 (v : bool) (o : Segments) : Segments :=
  let (a, b, c, _, e, f, g, h, i, j, k, l) := o in
  Build_Segments a b c v e f g h i j k l.
Definition set_trial1 (v : bool) (o : Segments) : Segments :=
  let (a, b, c, d, _, f, g, h, i, j, k, l) := o in
  Build_Segments a b c d v f g h i j k l.
Definition set_trial0 (v : bool) (o : Segments) : Segments :=
  let (a, b, c, d, e, _, g, h, i, j, k, l) := o in
  Build_Segments a b c d e v g h i j k l.
Definition set_paying (v : bool) (o : Segments) : Segments :=
  let (a, b, c, d, e, f, _, h, i, j, k, l) := o in
  Build_Segments a b c d e f v h i j k l.
Definition set_overuse (v : bool) (o : Segments) : Segments :=
  let (a, b, c, d, e, f, g, h, i, _, k, l) := o in
  Build_Segments a b c d e f g h i v k l.
Definition set_issueSegment (v : bool) (o : Segments) : Segments :=
  let (a, b, c, d, e, f, g, h, i, j, k, _) := o in
  Build_Segments a b c d e f g h i j k v.

(** The property values of the object, by [typeof]. *)
Inductive JsValue : Type :=
| JsBoolean (b : bool)
| JsString (s : string).

(** [Object.entries]: the own properties, in insertion order. *)
Definition Object_entries (o : Segments) : list (string * JsValue) :=
  [ ("capgo", JsBoolean (capgo o));
    ("onboarded", JsBoolean (onboarded o));
    ("trial", JsBoolean (trial o));
    ("trial7", JsBoolean (trial7 o));
    ("trial1", JsBoolean (trial1 o));
    ("trial0", JsBoolean (trial0 o));
    ("paying", JsBoolean (paying o));
    ("payingMonthly", JsBoolean (payingMonthly o));
    ("plan", JsString (plan o));
    ("overuse", JsBoolean (overuse o));
    ("canceled", JsBoolean (canceled o));
    ("issueSegment", JsBoolean (issueSegment o)) ].

Record SegmentLists : Type := {
  segments : list string;
  deleteSegments : list string
}.

(** The body of the [forEach] callback, on the two arrays built so far. *)
Definition processEntry (acc : SegmentLists) (entry : string * JsValue)
  : SegmentLists :=
  let (key, value) := entry in
  match value with
  | JsBoolean true =>
      {| segments := segments acc ++ [key];
         deleteSegments := deleteSegments acc |}
  | JsBoolean false =>
      {| segments := segments acc;
         deleteSegments := deleteSegments acc ++ [key] |}
  | JsString "" => acc
  | JsString s =>
      {| segments := segments acc ++ [(key ++ ":" ++ s)%string];
         deleteSegments := deleteSegments acc |}
  end.

Definition processSegments (segmentsObj : Segments) : SegmentLists :=
  fold_left processEntry (Object_entries segmentsObj)
    {| segments := []; deleteSegments := [] |}.

(** [plan?.price_m_id === price_id] *)
Definition price_m_id_is (plan : option Plan.t) (price_id : string) : bool :=
  match plan with
  | Some p => String.eqb (Plan.price_m_id p) price_id
  | None => false
  end.

(** [plan?.name ?? ''] *)
Definition name_or_empty (plan : option Plan.t) : string :=
  match plan with
  | Some p => Plan.name p
  | None => ""
  end.

(** Truthiness of [plan : Row | null | undefined]. *)
Definition present (plan : option Plan.t) : bool :=
  match plan with
  | Some _ => true
  | None => false
  end.

Definition customerToSegmentOrg (c : Backend) (orgId price_id : string)
    (plan : option Plan.t) : Eff SegmentLists :=
  isOnboarded <- isOnboardedOrg c orgId ;;
  isCanceled <- isCanceledOrg c orgId ;;
  let segmentsObj :=
    {| capgo := true;
       onboarded := isOnboarded;
       trial := false;
       trial7 := false;
       trial1 := false;
       trial0 := false;
       paying := false;
       payingMonthly := price_m_id_is plan price_id;
       plan := name_or_empty plan;
       overuse := false;
       canceled := isCanceled;
       issueSegment := false |} in
  trialDaysLeft <- isTrialOrg c orgId ;;
  paying <- isPayingOrg c orgId ;;
  canUseMore <- isGoodPlanOrg c orgId ;;
  if negb (onboarded segmentsObj) then ret (processSegments segmentsObj)
  else
    let segmentsObj :=
      if negb paying && (1 <? trialDaysLeft)%float
         && (trialDaysLeft <=? 7)%float
      then set_trial7 true (set_trial true segmentsObj)
      else if negb paying && (trialDaysLeft =? 1)%float
      then set_trial1 true (set_trial true segmentsObj)
      else if negb paying && negb canUseMore
      then set_trial0 true (set_trial true segmentsObj)
      else if paying && negb canUseMore && present plan
      then set_paying true (set_overuse true segmentsObj)
      else if paying && canUseMore && present plan
      then set_paying true segmentsObj
      else set_issueSegment true segmentsObj in
    ret (processSegments segmentsObj).

Definition DEFAUL_PLAN_NAME : string := "Solo".

Definition getCurrentPlanNameOrg (c : Backend) (orgId : option string)
  : Eff string :=
  match orgId with
  | None => ret DEFAUL_PLAN_NAME
  | Some "" => ret DEFAUL_PLAN_NAME
  | Some orgId =>
      r <- await (rpc "get_current_plan_name_org" [("orgid", orgId)])
             (get_current_plan_name_org c orgId) ;;
      match error r with
      | Some e => throw (Error (message e))
      | None => ret (or_string (data r) DEFAUL_PLAN_NAME)
      end
  end.

(** ** private/download_link.ts *)

Module DataDownload.
Record t : Type := {
  app_id : string;
  storage_provider : string;
  user_id : option string;
  id : number
}.
End DataDownload.

(** What the handler reads of the request: the [authorization] header,
    and what [c.req.json()] completes with, which is the body decoded at
    its declared type [DataDownload], or the value thrown for a body that
    does not decode. *)
Record Request : Type := {
  header_authorization : option string;
  json : Completion DataDownload.t
}.

(** The values of the properties of a response object: a string, or what
    [JSON.stringify(e)] returns for a caught value [e] that it accepts
    (see [serialisable]). *)
Inductive JsonValue : Type :=
| JsonString (s : string)
| JSON_stringify (e : JsError).

Record HttpResponse : Type := {
  http_status : nat;
  object : list (string * JsonValue)
}.

(** [c.json(object, status)]; the status is 200 when not given. *)
Definition c_json (object : list (string * JsonValue)) (status : option nat)
  : HttpResponse :=
  {| http_status := match status with Some s => s | None => 200 end;
     object := object |}.

(** [authorization?.split('Bearer ')[1]] *)
Definition bearer (authorization : string) : option string :=
  nth_error (split authorization "Bearer ") 1.

(** The handler given to [app.post('/')], as it runs after the
    middlewares. *)
Definition download_link (c : Backend) (req : Request) : Eff HttpResponse :=
  try_catch
    (body <- settle (json req) ;;
     match header_authorization req with
     | None =>
         ret (c_json [("status", JsonString "Cannot find authorization")]
                (Some 400))
     | Some "" =>
         ret (c_json [("status", JsonString "Cannot find authorization")]
                (Some 400))
     | Some authorization =>
         let jwt := bearer authorization in
         r <- await (auth_getUser jwt) (getUser c jwt) ;;
         match error r, data r with
         | Some _, _ | None, None =>
             ret (c_json [("status", JsonString "not authorize")] (Some 400))
         | None, Some auth =>
             match Auth.user auth with
             | None =>
                 ret (c_json [("status", JsonString "not authorize")]
                        (Some 400))
             | Some user =>
                 let userId := User.id user in
                 allowed <- hasAppRight c (Some (DataDownload.app_id body))
                              userId read ;;
                 if negb (or_false allowed)
                 then ret (c_json
                             [("status",
                               JsonString "You can't access this app");
                              ("app_id",
                               JsonString (DataDownload.app_id body))]
                             (Some 400))
                 else
                   r <- await
                          (from_app_versions_single (DataDownload.app_id body)
                             (DataDownload.id body))
                          (app_versions_single c (DataDownload.app_id body)
                             (DataDownload.id body)) ;;
                   let getBundleError := error r in
                   (* [(bundle?.owner_org as any).created_by]: reading
                      [created_by] of [undefined] (no bundle) or of [null]
                      (no joined organisation) throws *)
                   match data r with
                   | None => throw (TypeError "created_by")
                   | Some bundle =>
                       match Bundle.owner_org bundle with
                       | None => throw (TypeError "created_by")
                       | Some owner_org =>
                           let ownerOrg := OwnerOrg.created_by owner_org in
                           match getBundleError, ownerOrg with
                           | Some _, _ =>
                               ret (c_json
                                      [("status", JsonString "Error unknow")]
                                      (Some 500))
                           | None, None | None, Some "" =>
                               ret (c_json
                                      [("status", JsonString "Error unknow")]
                                      (Some 500))
                           | None, Some ownerOrg =>
                               signed <- await_or_reject
                                           (getBundleUrl ownerOrg bundle)
                                           (bundle_url c ownerOrg bundle) ;;
                               match signed with
                               | None =>
                                   ret (c_json
                                          [("status",
                                            JsonString "Error unknow")]
                                          (Some 500))
                               | Some d =>
                                   ret (c_json
                                          [("url", JsonString (UrlData.url d))]
                                          None)
                               end
                           end
                       end
                   end
             end
         end
     end)
    (fun e =>
       (* [JSON.stringify(e)] is evaluated inside the [catch] block: when it
          throws, its [TypeError] leaves the handler *)
       if serialisable e
       then ret (c_json [("status", JsonString "Cannot get download link");
                         ("error", JSON_stringify e)] (Some 500))
       else throw (TypeError "JSON.stringify")).

(** ** Concrete collaborators, for evaluating the code *)

Module Fixtures.

Definition answer {A : Type} (a : A) : Response A :=
  {| data := Some a; error := None |}.

Definition failure {A : Type} (msg : string) : Response A :=
  {| data := None;
     error := Some {| message := msg; details := ""; hint := "";
                      code := "PGRST000" |} |}.

Definition alice : User.t := {| User.id := "user-alice" |}.

Definition org_of_alice : OwnerOrg.t :=
  {| OwnerOrg.created_by := Some "user-alice" |}.

Definition bundle7 : Bundle.t :=
  {| Bundle.id := 7%float; Bundle.app_id := "app123";
     Bundle.name := "1.0.0"; Bundle.owner_org := Some org_of_alice |}.

Definition orphan7 : Bundle.t :=
  {| Bundle.id := 7%float; Bundle.app_id := "app123";
     Bundle.name := "1.0.0"; Bundle.owner_org := None |}.

Definition solo : Plan.t :=
  {| Plan.name := "Solo"; Plan.price_m_id := "price_solo_m" |}.

(** The identity provider knows the token "tok-alice" only. *)
Definition identity (jwt : option string) : Response Auth.t :=
  match jwt with
  | Some "tok-alice" => answer {| Auth.user := Some alice |}
  | _ => {| data := Some {| Auth.user := None |};
            error := Some {| message := "invalid JWT"; details := "";
                             hint := ""; code := "401" |} |}
  end.

(** A store in which every call fails. *)
Definition store_down : Backend :=
  {| getUser := identity;
     has_app_right_userid := fun _ _ _ => failure "connection refused";
     get_total_metrics := fun _ => failure "connection refused";
     get_plan_usage_percent_detailed := fun _ => failure "connection refused";
     is_good_plan_v5_org := fun _ => failure "connection refused";
     is_onboarded_org := fun _ => failure "connection refused";
     is_canceled_org := fun _ => failure "connection refused";
     is_paying_org := fun _ => failure "connection refused";
     is_trial_org := fun _ => failure "connection refused";
     get_current_plan_name_org := fun _ => failure "connection refused";
     app_versions_single := fun _ _ => failure "connection refused";
     bundle_url := fun _ _ => Normal None |}.

(** A store for an onboarded, paying organisation; [good] is the answer
    of [is_good_plan_v5_org], [granted] that of the rights lookup and
    [bundle] that of the bundle query. *)
Definition store (good granted : bool) (bundle : Response Bundle.t)
  : Backend :=
  {| getUser := identity;
     has_app_right_userid := fun _ _ _ => answer granted;
     get_total_metrics := fun _ =>
       answer {| mau := 3%float; bandwidth := 1024%float;
                 storage := 2048%float; get := 5%float; fail := 0%float;
                 install := 2%float; uninstall := 1%float |};
     get_plan_usage_percent_detailed := fun _ =>
       answer {| total_percent := 12.5%float; mau_percent := 3%float;
                 bandwidth_percent := 12.5%float;
                 storage_percent := 0.5%float |};
     is_good_plan_v5_org := fun _ => answer good;
     is_onboarded_org := fun _ => answer true;
     is_canceled_org := fun _ => answer false;
     is_paying_org := fun _ => answer true;
     is_trial_org := fun _ => answer 0%float;
     get_current_plan_name_org := fun _ => {| data := None; error := None |};
     app_versions_single := fun _ _ => bundle;
     bundle_url := fun _ _ =>
       Normal (Some {| UrlData.url := "https://signed.example/7" |}) |}.

Definition request (authorization user_id : option string) : Request :=
  {| header_authorization := authorization;
     json := Normal {| DataDownload.app_id := "app123";
                       DataDownload.storage_provider := "r2";
                       DataDownload.user_id := user_id;
                       DataDownload.id := 7%float |} |}.


End Fixtures.

(** ** More of utils/supabase.ts: table queries and writes *)

(** The operations of the store client used by the functions below, with
    their arguments: [rpc] with parameters that may be [null], [select]
    with its [eq] filters and optional [range], a counting [select], and
    the writes.  [op_createCustomer] is the call of the billing provider. *)
Inductive StoreOp : Type :=
| op_rpc (fn : string) (params : list (string * option string))
| op_select (table columns : string) (eqs : list (string * string))
    (range : option (nat * nat))
| op_count (table column : string) (eqs : list (string * string))
| op_insert (table : string) (rows : list (list (string * string)))
| op_upsert (table : string) (row : list (string * string))
    (onConflict : option string)
| op_update (table : string) (values eqs : list (string * string))
| op_createCustomer (email userId name : string).

Definition writes (op : StoreOp) : bool :=
  match op with
  | op_insert _ _ | op_upsert _ _ _ | op_update _ _ _ => true
  | _ => false
  end.

(** The answer of a counting [select]. *)
Record CountResponse : Type := {
  count : option nat;
  count_error : option PostgrestError
}.

Module AppRow.
Record t : Type := { app_id : string }.
End AppRow.

(** The columns of a [channels] row to upsert that the code reads. *)
Module ChannelInsert.
Record t : Type := {
  app_id : option string;
  name : option string;
  created_by : option string
}.
End ChannelInsert.

(** The columns of an [orgs] row that the code reads. *)
Module Org.
Record t : Type := {
  id : string;
  created_by : string;
  management_email : string;
  name : string
}.
End Org.

(** The column of the default [plans] row that the code reads. *)
Module DefaultPlan.
Record t : Type := { stripe_id : string }.
End DefaultPlan.

(** What [createCustomer] resolves to. *)
Module Customer.
Record t : Type := { id : string }.
End Customer.

(** The answers of the store to these operations, and what else the
    functions take from their environment. *)
Record Store : Type := {
  (* from('apps').select('app_id').range(from, to) *)
  apps_range : nat -> nat -> Response (list AppRow.t);
  (* from('apps').select().eq('user_id', _).eq('app_id', _) *)
  apps_owned : string -> string -> Response (list AppRow.t);
  check_min_rights : user_min_right -> string -> string -> Response bool;
  is_admin : string -> Response bool;
  is_allowed_action_org : string -> Response bool;
  is_onboarding_needed_org : string -> Response bool;
  (* from('apikeys').select('id', count).eq('user_id', _) *)
  apikeys_count : string -> CountResponse;
  apikeys_insert : list (list (string * string)) -> Response unit;
  channels_upsert : list (string * string) -> Response unit;
  (* from('plans').select().eq('name', _).single() *)
  plans_named : string -> Response DefaultPlan.t;
  stripe_info_insert : list (string * string) -> Response unit;
  orgs_update : list (string * string) -> string -> Response unit;
  (* Modelled from the spec: [createCustomer] of [utils/stripe.ts], a file
     outside the two embedded here; the spec gives the billing provider's
     customer creation as an external collaborator. *)
  createCustomer : string -> string -> string -> Completion Customer.t;
  (* the successive values of [crypto.randomUUID()] *)
  randomUUID : nat -> string;
  (* [toISOString()] of the current date moved forward by some days *)
  iso_in_days : nat -> string
}.

(** Computations over these operations, as [Eff] is over [Call]. *)
Definition Run (A : Type) : Type := (Completion A * list StoreOp)%type.

Definition run_ret {A : Type} (a : A) : Run A := (Normal a, []).

Definition run_throw {A : Type} (e : JsError) : Run A := (Throw e, []).

Definition run_bind {A B : Type} (m : Run A) (k : A -> Run B) : Run B :=
  match m with
  | (Normal a, ops) => let (r, ops') := k a in (r, ops ++ ops')
  | (Throw e, ops) => (Throw e, ops)
  end.

Definition run_try {A : Type} (body : Run A) (handler : JsError -> Run A)
  : Run A :=
  match body with
  | (Normal a, ops) => (Normal a, ops)
  | (Throw e, ops) => let (r, ops') := handler e in (r, ops ++ ops')
  end.

Definition run_await {A : Type} (op : StoreOp) (answer : A) : Run A :=
  (Normal answer, [op]).

Definition run_await_or_reject {A : Type} (op : StoreOp)
    (answer : Completion A) : Run A :=
  (answer, [op]).

Definition outcome {A : Type} (m : Run A) : Completion A := fst m.
Definition ops {A : Type} (m : Run A) : list StoreOp := snd m.

Declare Scope run_scope.
Delimit Scope run_scope with run.
Notation "x <- m ;; k" := (run_bind m (fun x => k))
  (at level 61, m at next level, right associativity) : run_scope.

(** [getAppsFromSB]: the pages of [limit] rows are read until a page is
    empty or fails.  The [while (true)] loop is unrolled [fuel] times;
    [None] is returned when the loop has not ended by then.  Page numbers
    are natural numbers (the code counts them in a [number]). *)
Definition limit : nat := 1000.

Fixpoint getAppsFromSB_loop (fuel : nat) (c : Store) (page : nat)
    (apps : list string) : Run (option (list string)) :=
  match fuel with
  | O => run_ret None
  | S fuel =>
      (r <- run_await
              (op_select "apps" "app_id" []
                 (Some (page * limit, (page + 1) * limit - 1)))
              (apps_range c (page * limit) ((page + 1) * limit - 1)) ;;
       match error r with
       | Some _ => run_ret (Some apps)
       | None =>
           match data r with
           | None => run_throw (TypeError "length")
           | Some [] => run_ret (Some apps)
           | Some rows =>
               getAppsFromSB_loop fuel c (page + 1)
                 (apps ++ map AppRow.app_id rows)
           end
       end)%run
  end.

Definition getAppsFromSB (fuel : nat) (c : Store)
  : Run (option (list string)) :=
  getAppsFromSB_loop fuel c 0 [].

Definition updateOrCreateChannel (c : Store) (update : ChannelInsert.t)
  : Run (Response unit) :=
  match ChannelInsert.app_id update, ChannelInsert.name update,
        ChannelInsert.created_by update with
  | Some (String a1 s1), Some (String a2 s2), Some (String a3 s3) =>
      let row := [("app_id", String a1 s1); ("name", String a2 s2);
                  ("created_by", String a3 s3)] in
      run_await (op_upsert "channels" row (Some "app_id, name"))
        (channels_upsert c row)
  | _, _, _ => run_throw (Error "missing app_id, name, or created_by")
  end.

Definition checkAppOwner (c : Store) (userId appId : option string)
  : Run bool :=
  match appId, userId with
  | Some (String a1 s1), Some (String a2 s2) =>
      let appId := String a1 s1 in
      let userId := String a2 s2 in
      run_try
        (r <- run_await
                (op_select "apps" "*"
                   [("user_id", userId); ("app_id", appId)] None)
                (apps_owned c userId appId) ;;
         match data r, error r with
         | None, _ => run_ret false
         | Some [], _ => run_ret false
         | Some _, Some _ => run_ret false
         | Some _, None => run_ret true
         end)%run
        (fun _ => run_ret false)
  | _, _ => run_ret false
  end.

Definition hasOrgRight (c : Store) (orgId userId : string)
    (right : user_min_right) : Run (option bool) :=
  (userRight <- run_await
                  (op_rpc "check_min_rights"
                     [("min_right", Some (right_name right));
                      ("org_id", Some orgId); ("user_id", Some userId);
                      ("channel_id", None); ("app_id", None)])
                  (check_min_rights c right orgId userId) ;;
   match error userRight, data userRight with
   | Some _, _ => run_ret (Some false)
   | None, None => run_ret (Some false)
   | None, Some false => run_ret (Some false)
   | None, Some true => run_ret (data userRight)
   end)%run.

Definition isOnboardingNeeded (c : Store) (userId : string) : Run bool :=
  run_try
    (r <- run_await (op_rpc "is_onboarding_needed_org"
                       [("orgid", Some userId)])
            (is_onboarding_needed_org c userId) ;;
     match error r with
     | Some e => run_throw (PostgrestThrown e)
     | None => run_ret (or_false (data r))
     end)%run
    (fun _ => run_ret false).

Definition isAdmin (c : Store) (userId : string) : Run bool :=
  (r <- run_await (op_rpc "is_admin" [("userid", Some userId)])
          (is_admin c userId) ;;
   match error r with
   | Some e => run_throw (Error (message e))
   | None => run_ret (or_false (data r))
   end)%run.

Definition isAllowedActionOrg (c : Store) (orgId : string) : Run bool :=
  run_try
    (r <- run_await (op_rpc "is_allowed_action_org" [("orgid", Some orgId)])
            (is_allowed_action_org c orgId) ;;
     match error r with
     | Some e => run_throw (PostgrestThrown e)
     | None => run_ret (or_false (data r))
     end)%run
    (fun _ => run_ret false).

(** [res.count || 0] *)
Definition count_or_zero (res : CountResponse) : nat :=
  match count res with
  | Some n => n
  | None => 0
  end.

(** [createApiKey] resolves to the answer of the insert, or to
    [undefined] when it inserts nothing. *)
Definition createApiKey (c : Store) (userId : string)
  : Run (option (Response unit)) :=
  (total <- run_await (op_count "apikeys" "id" [("user_id", userId)])
              (count_or_zero (apikeys_count c userId)) ;;
   match total with
   | O =>
       let rows :=
         [ [("user_id", userId); ("key", randomUUID c 0); ("mode", "all");
            ("name", "all")];
           [("user_id", userId); ("key", randomUUID c 1); ("mode", "upload");
            ("name", "upload")];
           [("user_id", userId); ("key", randomUUID c 2); ("mode", "read");
            ("name", "read")] ] in
       r <- run_await (op_insert "apikeys" rows) (apikeys_insert c rows) ;;
       run_ret (Some r)
   | S _ => run_ret None
   end)%run.

Definition getDefaultPlan (c : Store) : Run (option DefaultPlan.t) :=
  (r <- run_await (op_select "plans" "*" [("name", "Solo")] None)
          (plans_named c "Solo") ;;
   run_ret (data r))%run.

Definition createStripeCustomer (c : Store) (org : Org.t) : Run unit :=
  (customer <- run_await_or_reject
                 (op_createCustomer (Org.management_email org)
                    (Org.created_by org) (Org.name org))
                 (createCustomer c (Org.management_email org)
                    (Org.created_by org) (Org.name org)) ;;
   let trial_at := iso_in_days c 15 in
   soloPlan <- getDefaultPlan c ;;
   match soloPlan with
   | None => run_throw (Error "no default plan")
   | Some soloPlan =>
       let info :=
         [("product_id", DefaultPlan.stripe_id soloPlan);
          ("customer_id", Customer.id customer); ("trial_at", trial_at)] in
       _ <- run_await (op_insert "stripe_info" [info])
              (stripe_info_insert c info) ;;
       let values := [("customer_id", Customer.id customer)] in
       _ <- run_await (op_update "orgs" values [("id", Org.id org)])
              (orgs_update c values (Org.id org)) ;;
       run_ret tt
   end)%run.

(** Concrete stores, for evaluating the functions above. *)
Module StoreFixtures.

Definition rows_of (ids : list string) : list AppRow.t :=
  map (fun id => {| AppRow.app_id := id |}) ids.

(** A store whose [apps] table holds the rows [apps], read page by page,
    in which the user "user-alice" owns the app "app123" and has no API
    key yet, and which has the default plan. *)
Definition store (apps : list AppRow.t) : Store :=
  {| apps_range := fun from to =>
       Fixtures.answer (firstn (to - from + 1) (skipn from apps));
     apps_owned := fun userId appId =>
       match userId, appId with
       | "user-alice", "app123" =>
           Fixtures.answer [{| AppRow.app_id := "app123" |}]
       | _, _ => Fixtures.answer []
       end;
     check_min_rights := fun _ _ userId =>
       match userId with
       | "user-alice" => Fixtures.answer true
       | _ => Fixtures.answer false
       end;
     is_admin := fun _ => Fixtures.answer false;
     is_allowed_action_org := fun _ => Fixtures.answer true;
     is_onboarding_needed_org := fun _ => Fixtures.answer false;
     apikeys_count := fun _ => {| count := Some 0; count_error := None |};
     apikeys_insert := fun _ => {| data := None; error := None |};
     channels_upsert := fun _ => {| data := None; error := None |};
     plans_named := fun _ =>
       Fixtures.answer {| DefaultPlan.stripe_id := "prod_solo" |};
     stripe_info_insert := fun _ => Fixtures.failure "duplicate key";
     orgs_update := fun _ _ => {| data := None; error := None |};
     createCustomer := fun _ _ _ => Normal {| Customer.id := "cus_1" |};
     randomUUID := fun n =>
       match n with
       | 0 => "uuid-0"
       | 1 => "uuid-1"
       | _ => "uuid-2"
       end;
     iso_in_days := fun _ => "2024-01-16T00:00:00.000Z" |}.

(** A store in which every call fails, and which has no default plan. *)
Definition down : Store :=
  {| apps_range := fun _ _ => Fixtures.failure "connection refused";
     apps_owned := fun _ _ => Fixtures.failure "connection refused";
     check_min_rights := fun _ _ _ => Fixtures.failure "connection refused";
     is_admin := fun _ => Fixtures.failure "connection refused";
     is_allowed_action_org := fun _ => Fixtures.failure "connection refused";
     is_onboarding_needed_org := fun _ =>
       Fixtures.failure "connection refused";
     apikeys_count := fun _ =>
       {| count := None;
          count_error := Some {| message := "connection refused";
                                 details := ""; hint := "";
                                 code := "PGRST000" |} |};
     apikeys_insert := fun _ => Fixtures.failure "connection refused";
     channels_upsert := fun _ => Fixtures.failure "connection refused";
     plans_named := fun _ => Fixtures.failure "connection refused";
     stripe_info_insert := fun _ => Fixtures.failure "connection refused";
     orgs_update := fun _ _ => Fixtures.failure "connection refused";
     createCustomer := fun _ _ _ => Normal {| Customer.id := "cus_1" |};
     randomUUID := fun _ => "uuid";
     iso_in_days := fun _ => "2024-01-16T00:00:00.000Z" |}.

Definition acme : Org.t :=
  {| Org.id := "org1"; Org.created_by := "user-alice";
     Org.management_email := "alice@example.org"; Org.name := "Acme" |}.

End StoreFixtures.

(** ** Evaluating the code on concrete inputs *)

Example split_bearer : split "Bearer abc.def" "Bearer " = [""; "abc.def"].
Proof. reflexivity. Qed.

Example split_no_bearer : split "abc.def" "Bearer " = ["abc.def"].
Proof. reflexivity. Qed.

Example split_bearer_twice :
  split "xBearer aBearer b" "Bearer " = ["x"; "a"; "b"].
Proof. reflexivity. Qed.

Example split_bearer_last : split "Bearer " "Bearer " = [""; ""].
Proof. reflexivity. Qed.

Example download_link_issues_url :
  download_link (Fixtures.store true true (Fixtures.answer Fixtures.bundle7))
    (Fixtures.request (Some "Bearer tok-alice") None)
  = (Normal {| http_status := 200;
               object := [("url", JsonString "https://signed.example/7")] |},
     [auth_getUser (Some "tok-alice");
      rpc "has_app_right_userid"
        [("appid", "app123"); ("right", "read"); ("userid", "user-alice")];
      from_app_versions_single "app123" 7%float;
      getBundleUrl "user-alice" Fixtures.bundle7]).
Proof. reflexivity. Qed.

Example download_link_no_header :
  result (download_link Fixtures.store_down (Fixtures.request None None))
  = Normal {| http_status := 400;
              object := [("status", JsonString "Cannot find authorization")] |}.
Proof. reflexivity. Qed.

Example segments_paying_good_plan :
  result (customerToSegmentOrg
            (Fixtures.store true true (Fixtures.answer Fixtures.bundle7))
            "org1" "price_solo_m" (Some Fixtures.solo))
  = Normal {| segments := ["capgo"; "onboarded"; "paying"; "payingMonthly";
                           "plan:Solo"];
              deleteSegments := ["trial"; "trial7"; "trial1"; "trial0";
                                 "overuse"; "canceled"; "issueSegment"] |}.
Proof. reflexivity. Qed.

Example segments_store_down :
  result (customerToSegmentOrg Fixtures.store_down "org1" "price_solo_m" None)
  = Normal {| segments := ["capgo"];
              deleteSegments := ["onboarded"; "trial"; "trial7"; "trial1";
                                 "trial0"; "paying"; "payingMonthly";
                                 "overuse"; "canceled"; "issueSegment"] |}.
Proof. reflexivity. Qed.

(** ** The computation monad *)

Lemma bind_ret {A B : Type} (a : A) (k : A -> Eff B) :
  bind (ret a) k = k a.
Proof. unfold bind, ret. destruct (k a) as [r l]. reflexivity. Qed.

Lemma bind_await {A B : Type} (call : Call) (a : A) (k : A -> Eff B) :
  bind (await call a) k = (result (k a), call :: calls (k a)).
Proof. unfold bind, await. destruct (k a) as [r l]. reflexivity. Qed.

Lemma bind_throw {A B : Type} (e : JsError) (k : A -> Eff B) :
  bind (throw e) k = throw e.
Proof. reflexivity. Qed.

Lemma bind_normal {A B : Type} (a : A) (l : list Call) (k : A -> Eff B) :
  bind (Normal a, l) k = (result (k a), l ++ calls (k a)).
Proof. unfold bind. destruct (k a) as [r l']. reflexivity. Qed.

(** ** Quota read-outs: [getTotalStats], [getPlanUsagePercent] *)

(** C7. Called with an absent org id, [getTotalStats] returns exactly the
    object with [mau], [bandwidth], [storage], [get], [fail], [install] and
    [uninstall] all 0, and [getPlanUsagePercent] exactly the object with
    the four percentages all 0; both complete normally and issue no call to
    the store, whatever the store would answer. *)
Theorem quota_absent_org_zero (c : Backend) :
  getTotalStats c None
  = (Normal (Some {| mau := 0%float; bandwidth := 0%float;
                     storage := 0%float; get := 0%float; fail := 0%float;
                     install := 0%float; uninstall := 0%float |}), [])
  /\ getPlanUsagePercent c None
     = (Normal (Some {| total_percent := 0%float; mau_percent := 0%float;
                        bandwidth_percent := 0%float;
                        storage_percent := 0%float |}), []).
Proof. split; reflexivity. Qed.

(** C2, as the spec states it, fails: with a store whose calls fail, both
    read-outs of the organisation "org1" throw; neither returns its
    all-zero object. *)
Lemma quota_store_failure_throws :
  error (get_total_metrics Fixtures.store_down "org1") <> None
  /\ error (get_plan_usage_percent_detailed Fixtures.store_down "org1")
     <> None
  /\ getTotalStats Fixtures.store_down (Some "org1")
     = (Throw (Error "connection refused"),
        [rpc "get_total_metrics" [("org_id", "org1")]])
  /\ getPlanUsagePercent Fixtures.store_down (Some "org1")
     = (Throw (Error "connection refused"),
        [rpc "get_plan_usage_percent_detailed" [("orgid", "org1")]])
  /\ result (getTotalStats Fixtures.store_down (Some "org1"))
     <> Normal (Some zeroPlanTotal)
  /\ result (getPlanUsagePercent Fixtures.store_down (Some "org1"))
     <> Normal (Some zeroPlanUsage).
Proof.
  repeat split; try reflexivity; cbn; discriminate.
Qed.

(** C2, amended. For an absent or empty org id both read-outs return their
    all-zero object.  For any other org id, when the store call reports an
    error [e], the read-out throws [new Error(e.message)] to its caller,
    after that one call. *)
Theorem quota_store_failure (c : Backend) (orgId : string) :
  (forall o, not_str o = true ->
     getTotalStats c o = (Normal (Some zeroPlanTotal), [])
     /\ getPlanUsagePercent c o = (Normal (Some zeroPlanUsage), []))
  /\ (orgId <> "" ->
      forall e, error (get_total_metrics c orgId) = Some e ->
        getTotalStats c (Some orgId)
        = (Throw (Error (message e)),
           [rpc "get_total_metrics" [("org_id", orgId)]]))
  /\ (orgId <> "" ->
      forall e, error (get_plan_usage_percent_detailed c orgId) = Some e ->
        getPlanUsagePercent c (Some orgId)
        = (Throw (Error (message e)),
           [rpc "get_plan_usage_percent_detailed" [("orgid", orgId)]])).
Proof.
  split; [| split].
  - intros [[| ch s] |] H; cbn in H; try discriminate; split; reflexivity.
  - intros Hne e He. destruct orgId as [| ch s]; [contradiction |].
    unfold getTotalStats. rewrite bind_await. rewrite He. reflexivity.
  - intros Hne e He. destruct orgId as [| ch s]; [contradiction |].
    unfold getPlanUsagePercent. rewrite bind_await. rewrite He. reflexivity.
Qed.

Lemma quota_store_failure_witness :
  (getTotalStats Fixtures.store_down None = (Normal (Some zeroPlanTotal), [])
   /\ getPlanUsagePercent Fixtures.store_down None
      = (Normal (Some zeroPlanUsage), []))
  /\ getTotalStats Fixtures.store_down (Some "org1")
     = (Throw (Error "connection refused"),
        [rpc "get_total_metrics" [("org_id", "org1")]])
  /\ getPlanUsagePercent Fixtures.store_down (Some "org1")
     = (Throw (Error "connection refused"),
        [rpc "get_plan_usage_percent_detailed" [("orgid", "org1")]]).
Proof.
  destruct (quota_store_failure Fixtures.store_down "org1") as [H0 [H1 H2]].
  split; [| split].
  - apply H0. reflexivity.
  - apply (H1 ltac:(discriminate)
             {| message := "connection refused"; details := ""; hint := "";
                code := "PGRST000" |}).
    reflexivity.
  - apply (H2 ltac:(discriminate)
             {| message := "connection refused"; details := ""; hint := "";
                code := "PGRST000" |}).
    reflexivity.
Defined.

(** ** Plan-name resolution: [getCurrentPlanNameOrg] *)

(** C9, as the spec states it, fails: with a store whose calls fail, the
    plan name of the organisation "org1" is not resolved to "Solo"; the
    function throws. *)
Lemma plan_name_store_failure_throws :
  getCurrentPlanNameOrg Fixtures.store_down (Some "org1")
  = (Throw (Error "connection refused"),
     [rpc "get_current_plan_name_org" [("orgid", "org1")]])
  /\ forall name,
       result (getCurrentPlanNameOrg Fixtures.store_down (Some "org1"))
       <> Normal name.
Proof. split; [reflexivity | intros name; cbn; discriminate]. Qed.

(** C9, amended. [getCurrentPlanNameOrg] returns "Solo" when the org id is
    absent or empty, and when the store answers without an error and with
    no plan name (null or the empty string); it returns the stored name
    when there is one; when the store call reports an error [e] it throws
    [new Error(e.message)] to its caller. *)
Theorem plan_name_resolution (c : Backend) (orgId : string) :
  (forall o, not_str o = true ->
     getCurrentPlanNameOrg c o = (Normal "Solo", []))
  /\ (orgId <> "" ->
      error (get_current_plan_name_org c orgId) = None ->
      (data (get_current_plan_name_org c orgId) = None
       \/ data (get_current_plan_name_org c orgId) = Some "") ->
      result (getCurrentPlanNameOrg c (Some orgId)) = Normal "Solo")
  /\ (orgId <> "" ->
      error (get_current_plan_name_org c orgId) = None ->
      forall name, name <> "" ->
        data (get_current_plan_name_org c orgId) = Some name ->
        result (getCurrentPlanNameOrg c (Some orgId)) = Normal name)
  /\ (orgId <> "" ->
      forall e, error (get_current_plan_name_org c orgId) = Some e ->
        getCurrentPlanNameOrg c (Some orgId)
        = (Throw (Error (message e)),
           [rpc "get_current_plan_name_org" [("orgid", orgId)]])).
Proof.
  repeat split.
  - intros [[| ch s] |] H; cbn in H; try discriminate; reflexivity.
  - intros Hne He Hd. destruct orgId as [| ch s]; [contradiction |].
    unfold getCurrentPlanNameOrg. rewrite bind_await, He.
    destruct Hd as [Hd | Hd]; rewrite Hd; reflexivity.
  - intros Hne He name Hname Hd.
    destruct orgId as [| ch s]; [contradiction |].
    unfold getCurrentPlanNameOrg. rewrite bind_await, He, Hd.
    destruct name; [contradiction | reflexivity].
  - intros Hne e He. destruct orgId as [| ch s]; [contradiction |].
    unfold getCurrentPlanNameOrg. rewrite bind_await, He. reflexivity.
Qed.

Lemma plan_name_resolution_witness :
  getCurrentPlanNameOrg Fixtures.store_down None = (Normal "Solo", [])
  /\ result (getCurrentPlanNameOrg
               (Fixtures.store true true (Fixtures.failure "no rows"))
               (Some "org1")) = Normal "Solo"
  /\ getCurrentPlanNameOrg Fixtures.store_down (Some "org1")
     = (Throw (Error "connection refused"),
        [rpc "get_current_plan_name_org" [("orgid", "org1")]]).
Proof.
  split; [| split].
  - apply (proj1 (plan_name_resolution Fixtures.store_down "org1")).
    reflexivity.
  - apply (proj1 (proj2 (plan_name_resolution
             (Fixtures.store true true (Fixtures.failure "no rows")) "org1"))).
    + discriminate.
    + reflexivity.
    + left. reflexivity.
  - apply (proj2 (proj2 (proj2
             (plan_name_resolution Fixtures.store_down "org1")))
             ltac:(discriminate)
             {| message := "connection refused"; details := ""; hint := "";
                code := "PGRST000" |}).
    reflexivity.
Defined.

(** ** Rights lookup: [hasAppRight] *)

(** C5. [hasAppRight] is fail-closed: with an absent (or empty) app id it
    returns [false] without any call; when the rights lookup reports an
    error it returns [false]; it always completes normally, so no exception
    reaches the caller; and it writes nothing: its only remote operation,
    if any, is the one call of the [has_app_right_userid] lookup. *)
Theorem hasAppRight_fail_closed (c : Backend) (appId : option string)
    (userid : string) (right : user_min_right) :
  (appId = None -> hasAppRight c appId userid right = (Normal (Some false), []))
  /\ (not_str appId = true ->
      hasAppRight c appId userid right = (Normal (Some false), []))
  /\ (forall a, appId = Some a ->
      error (has_app_right_userid c a right userid) <> None ->
      result (hasAppRight c appId userid right) = Normal (Some false))
  /\ (exists v, result (hasAppRight c appId userid right) = Normal v)
  /\ Forall (fun call => mutates call = false)
       (calls (hasAppRight c appId userid right))
  /\ (calls (hasAppRight c appId userid right) = []
      \/ exists a, appId = Some a
         /\ calls (hasAppRight c appId userid right)
            = [rpc "has_app_right_userid"
                 [("appid", a); ("right", right_name right);
                  ("userid", userid)]]).
Proof.
  destruct appId as [[| ch s] |]; cbn [hasAppRight].
  - split; [| split; [| split; [| split; [| split]]]].
    + reflexivity.
    + reflexivity.
    + intros a Ha. injection Ha as <-. reflexivity.
    + exists (Some false). reflexivity.
    + constructor.
    + left. reflexivity.
  - rewrite bind_await.
    split; [| split; [| split; [| split; [| split]]]].
    + discriminate.
    + discriminate.
    + intros a Ha Herr. injection Ha as <-.
      destruct (error (has_app_right_userid c (String ch s) right userid));
        [reflexivity | contradiction].
    + destruct (error (has_app_right_userid c (String ch s) right userid));
        eexists; reflexivity.
    + destruct (error (has_app_right_userid c (String ch s) right userid));
        cbn; repeat constructor.
    + right. exists (String ch s). split; [reflexivity |].
      destruct (error (has_app_right_userid c (String ch s) right userid));
        reflexivity.
  - split; [| split; [| split; [| split; [| split]]]].
    + reflexivity.
    + reflexivity.
    + discriminate.
    + exists (Some false). reflexivity.
    + constructor.
    + left. reflexivity.
Qed.

Lemma hasAppRight_fail_closed_witness :
  hasAppRight Fixtures.store_down None "user-alice" read
  = (Normal (Some false), [])
  /\ result (hasAppRight Fixtures.store_down (Some "app123") "user-alice" read)
     = Normal (Some false).
Proof.
  split.
  - apply (proj1 (hasAppRight_fail_closed Fixtures.store_down None
                    "user-alice" read)).
    reflexivity.
  - apply (proj1 (proj2 (proj2
             (hasAppRight_fail_closed Fixtures.store_down (Some "app123")
                "user-alice" read))) "app123").
    + reflexivity.
    + cbn. discriminate.
Defined.

(** ** Segment computation: [processSegments], [customerToSegmentOrg] *)

Ltac break_hyps :=
  repeat match goal with
    | H : _ \/ _ |- _ => destruct H
    | H : _ /\ _ |- _ => destruct H
    | H : exists _, _ |- _ => destruct H
    | H : False |- _ => destruct H
    | H : (_, _) = (_, _) |- _ => inversion H; subst; clear H
    end.

(** What the [forEach] loop leaves in the two arrays. *)
Lemma In_segments_fold (x : string) (entries : list (string * JsValue)) :
  forall acc,
    In x (segments (fold_left processEntry entries acc))
    <-> In x (segments acc)
        \/ In (x, JsBoolean true) entries
        \/ exists key s, In (key, JsString s) entries /\ s <> ""
                         /\ x = (key ++ ":" ++ s)%string.
Proof.
  induction entries as [| [key value] entries IH]; intros acc; cbn [fold_left].
  - cbn. split; intros H; break_hyps; auto.
  - rewrite IH. clear IH. cbn [In].
    destruct value as [[|] | [| ch s]]; cbn [processEntry segments];
      try rewrite in_app_iff; cbn [In];
      (split; intros H; break_hyps; subst; try discriminate;
       try contradiction; eauto 8).
    right. right. exists key, (String ch s).
    split; [auto | split; [discriminate | reflexivity]].
Qed.

Lemma In_deleteSegments_fold (x : string) (entries : list (string * JsValue)) :
  forall acc,
    In x (deleteSegments (fold_left processEntry entries acc))
    <-> In x (deleteSegments acc) \/ In (x, JsBoolean false) entries.
Proof.
  induction entries as [| [key value] entries IH]; intros acc; cbn [fold_left].
  - cbn. tauto.
  - rewrite IH. clear IH. cbn [In].
    destruct value as [[|] | [| ch s]]; cbn [processEntry deleteSegments];
      try rewrite in_app_iff; cbn [In];
      (split; intros H; break_hyps; subst; try discriminate; auto).
Qed.

Lemma In_segments (o : Segments) (x : string) :
  In x (segments (processSegments o))
  <-> In (x, JsBoolean true) (Object_entries o)
      \/ (plan o <> "" /\ x = ("plan:" ++ plan o)%string).
Proof.
  unfold processSegments. rewrite In_segments_fold. cbn [segments In].
  split; intros H.
  - destruct H as [[] | [H | (key & s & H & Hs & ->)]]; [auto |].
    right. cbn [Object_entries In] in H.
    break_hyps; try discriminate. auto.
  - destruct H as [H | [Hs ->]]; [auto |].
    right. right. exists "plan", (plan o).
    split; [| auto]. cbn. tauto.
Qed.

Lemma In_deleteSegments (o : Segments) (x : string) :
  In x (deleteSegments (processSegments o))
  <-> In (x, JsBoolean false) (Object_entries o).
Proof.
  unfold processSegments. rewrite In_deleteSegments_fold.
  cbn [deleteSegments In]. tauto.
Qed.

(** A property key of the object has one value. *)
Lemma Object_entries_functional (o : Segments) (key : string)
    (v1 v2 : JsValue) :
  In (key, v1) (Object_entries o) -> In (key, v2) (Object_entries o) ->
  v1 = v2.
Proof.
  cbn [Object_entries In]. intros H1 H2.
  repeat (destruct H1 as [H1 | H1];
          [injection H1 as <- <-;
           repeat (destruct H2 as [H2 | H2];
                   [try discriminate H2; injection H2 as <-; reflexivity |]);
           destruct H2 |]).
  destruct H1.
Qed.

(** The boolean properties have keys without a colon, so none of them is
    a [plan:<name>] tag. *)
Lemma boolean_key_not_plan_tag (o : Segments) (b : bool) (s : string) :
  ~ In (("plan:" ++ s)%string, JsBoolean b) (Object_entries o).
Proof.
  cbn [Object_entries In]. intros H.
  repeat (destruct H as [H | H]; [discriminate H |]). destruct H.
Qed.

(** The organisation flags are read through [try]/[catch]: they complete
    normally whatever the store answers, after one call. *)
Lemma flag_total {A B : Type} (call : Call) (answer : Response A)
    (read : option A -> B) (dflt : B) :
  exists b,
    try_catch
      (r <- await call answer ;; r <- throwOnError r ;; ret (read (data r)))
      (fun _ => ret dflt)
    = (Normal b, [call]).
Proof.
  unfold await, throwOnError, bind, try_catch.
  destruct (error answer); cbn; eexists; reflexivity.
Qed.

Lemma isOnboardedOrg_total (c : Backend) (orgId : string) :
  exists b, isOnboardedOrg c orgId
            = (Normal b, [rpc "is_onboarded_org" [("orgid", orgId)]]).
Proof. apply flag_total. Qed.

Lemma isCanceledOrg_total (c : Backend) (orgId : string) :
  exists b, isCanceledOrg c orgId
            = (Normal b, [rpc "is_canceled_org" [("orgid", orgId)]]).
Proof. apply flag_total. Qed.

Lemma isPayingOrg_total (c : Backend) (orgId : string) :
  exists b, isPayingOrg c orgId
            = (Normal b, [rpc "is_paying_org" [("orgid", orgId)]]).
Proof. apply flag_total. Qed.

Lemma isGoodPlanOrg_total (c : Backend) (orgId : string) :
  exists b, isGoodPlanOrg c orgId
            = (Normal b, [rpc "is_good_plan_v5_org" [("orgid", orgId)]]).
Proof. apply flag_total. Qed.

Lemma isTrialOrg_total (c : Backend) (orgId : string) :
  exists days, isTrialOrg c orgId
               = (Normal days, [rpc "is_trial_org" [("orgid", orgId)]]).
Proof. apply flag_total. Qed.

(** [customerToSegmentOrg] reads the five flags, in this order, and
    returns [processSegments] of the object it has filled in. *)
Lemma customerToSegmentOrg_total (c : Backend) (orgId price_id : string)
    (row : option Plan.t) :
  exists o,
    customerToSegmentOrg c orgId price_id row
    = (Normal (processSegments o),
       [rpc "is_onboarded_org" [("orgid", orgId)];
        rpc "is_canceled_org" [("orgid", orgId)];
        rpc "is_trial_org" [("orgid", orgId)];
        rpc "is_paying_org" [("orgid", orgId)];
        rpc "is_good_plan_v5_org" [("orgid", orgId)]])
    /\ capgo o = true
    /\ payingMonthly o = price_m_id_is row price_id
    /\ plan o = name_or_empty row.
Proof.
  unfold customerToSegmentOrg.
  destruct (isOnboardedOrg_total c orgId) as [isOnboarded ->].
  destruct (isCanceledOrg_total c orgId) as [isCanceled ->].
  destruct (isTrialOrg_total c orgId) as [trialDaysLeft ->].
  destruct (isPayingOrg_total c orgId) as [isPaying ->].
  destruct (isGoodPlanOrg_total c orgId) as [canUseMore ->].
  rewrite !bind_normal. cbn [onboarded].
  destruct isOnboarded; cbn [negb];
    repeat match goal with
      | |- context [if ?b then _ else _] => destruct b
      end;
    eexists; (split; [reflexivity | repeat split]).
Qed.

(** C6. For every object of flags, the two lists that [processSegments]
    returns are disjoint, and every boolean property of the object has its
    bare key in exactly one of them: in [segments] when it is true, in
    [deleteSegments] when it is false.  [customerToSegmentOrg] always
    completes with [processSegments] of such an object. *)
Theorem segments_partition :
  (forall o : Segments,
     (forall x, In x (segments (processSegments o)) ->
                In x (deleteSegments (processSegments o)) -> False)
     /\ (forall key b, In (key, JsBoolean b) (Object_entries o) ->
           (In key (segments (processSegments o))
            /\ ~ In key (deleteSegments (processSegments o)))
           \/ (~ In key (segments (processSegments o))
               /\ In key (deleteSegments (processSegments o)))))
  /\ (forall (c : Backend) (orgId price_id : string) (row : option Plan.t),
        exists o, result (customerToSegmentOrg c orgId price_id row)
                  = Normal (processSegments o)).
Proof.
  split.
  - intros o. split.
    + intros x Hs Hd. apply In_segments in Hs. apply In_deleteSegments in Hd.
      destruct Hs as [Hs | [_ ->]].
      * pose proof (Object_entries_functional o x _ _ Hs Hd). discriminate.
      * exact (boolean_key_not_plan_tag o false (plan o) Hd).
    + intros key b Hin. destruct b.
      * left. split.
        -- apply In_segments. left. exact Hin.
        -- intros Hd. apply In_deleteSegments in Hd.
           pose proof (Object_entries_functional o key _ _ Hin Hd).
           discriminate.
      * right. split.
        -- intros Hs. apply In_segments in Hs. destruct Hs as [Hs | [_ ->]].
           ++ pose proof (Object_entries_functional o key _ _ Hin Hs).
              discriminate.
           ++ exact (boolean_key_not_plan_tag o false (plan o) Hin).
        -- apply In_deleteSegments. exact Hin.
  - intros c orgId price_id row.
    destruct (customerToSegmentOrg_total c orgId price_id row) as (o & -> & _).
    exists o. reflexivity.
Qed.

Lemma segments_partition_witness :
  let o := {| capgo := true; onboarded := true; trial := false;
              trial7 := false; trial1 := false; trial0 := false;
              paying := true; payingMonthly := false; plan := "Solo";
              overuse := true; canceled := false; issueSegment := false |} in
  (In "overuse" (deleteSegments (processSegments o)) -> False)
  /\ ((In "trial" (segments (processSegments o))
       /\ ~ In "trial" (deleteSegments (processSegments o)))
      \/ (~ In "trial" (segments (processSegments o))
          /\ In "trial" (deleteSegments (processSegments o)))).
Proof.
  intros o. split.
  - apply (proj1 (proj1 segments_partition o) "overuse").
    vm_compute. tauto.
  - apply (proj2 (proj1 segments_partition o) "trial" false).
    vm_compute. tauto.
Defined.

(** C3, as the spec states it, fails: for an onboarded, paying
    organisation that cannot use more, computed without a plan row, the
    segments have neither "overuse" nor "paying", and "issueSegment" is
    among the segments, not among the segments to delete. *)
Lemma overuse_without_plan_is_issueSegment :
  let c := Fixtures.store false true (Fixtures.answer Fixtures.bundle7) in
  result (isOnboardedOrg c "org1") = Normal true
  /\ result (isPayingOrg c "org1") = Normal true
  /\ result (isGoodPlanOrg c "org1") = Normal false
  /\ result (customerToSegmentOrg c "org1" "price_solo_m" None)
     = Normal {| segments := ["capgo"; "onboarded"; "issueSegment"];
                 deleteSegments := ["trial"; "trial7"; "trial1"; "trial0";
                                    "paying"; "payingMonthly"; "overuse";
                                    "canceled"] |}
  /\ ~ (exists r,
          result (customerToSegmentOrg c "org1" "price_solo_m" None)
          = Normal r
          /\ In "overuse" (segments r) /\ In "paying" (segments r)
          /\ In "issueSegment" (deleteSegments r)).
Proof.
  intros c. repeat split; try reflexivity.
  intros (r & Hr & Ho & _). vm_compute in Hr. injection Hr as <-.
  cbn in Ho. repeat (destruct Ho as [Ho | Ho]; [discriminate Ho |]).
  exact Ho.
Qed.

(** C3, amended. For every organisation that is onboarded, paying and
    cannot use more, computed with a plan row, the segments contain
    "overuse" and "paying", and the segments to delete contain "trial",
    "trial7", "trial1", "trial0" and "issueSegment". *)
Theorem overuse_paying_segments (c : Backend) (orgId price_id : string)
    (row : Plan.t) :
  result (isOnboardedOrg c orgId) = Normal true ->
  result (isPayingOrg c orgId) = Normal true ->
  result (isGoodPlanOrg c orgId) = Normal false ->
  exists r,
    result (customerToSegmentOrg c orgId price_id (Some row)) = Normal r
    /\ In "overuse" (segments r) /\ In "paying" (segments r)
    /\ In "trial" (deleteSegments r) /\ In "trial7" (deleteSegments r)
    /\ In "trial1" (deleteSegments r) /\ In "trial0" (deleteSegments r)
    /\ In "issueSegment" (deleteSegments r).
Proof.
  unfold customerToSegmentOrg.
  destruct (isOnboardedOrg_total c orgId) as [isOnboarded ->].
  destruct (isCanceledOrg_total c orgId) as [isCanceled ->].
  destruct (isTrialOrg_total c orgId) as [trialDaysLeft ->].
  destruct (isPayingOrg_total c orgId) as [isPaying ->].
  destruct (isGoodPlanOrg_total c orgId) as [canUseMore ->].
  cbn [result fst]. intros [= ->] [= ->] [= ->].
  rewrite !bind_normal. cbn [onboarded negb andb present result fst ret].
  eexists. split; [reflexivity |].
  repeat split;
    ((apply In_segments; left) || apply In_deleteSegments);
    cbn; auto 20.
Qed.

Lemma overuse_paying_segments_witness :
  exists r,
    result (customerToSegmentOrg
              (Fixtures.store false true (Fixtures.answer Fixtures.bundle7))
              "org1" "price_solo_m" (Some Fixtures.solo)) = Normal r
    /\ In "overuse" (segments r) /\ In "paying" (segments r)
    /\ In "trial" (deleteSegments r) /\ In "trial7" (deleteSegments r)
    /\ In "trial1" (deleteSegments r) /\ In "trial0" (deleteSegments r)
    /\ In "issueSegment" (deleteSegments r).
Proof.
  apply (overuse_paying_segments
           (Fixtures.store false true (Fixtures.answer Fixtures.bundle7))
           "org1" "price_solo_m" Fixtures.solo); reflexivity.
Defined.

(** C8, as the spec states it, fails for [payingMonthly]: it is a boolean
    property, not a string.  Computed without a plan row it is not left out
    of both lists: its bare key is among the segments to delete.  Computed
    with a plan row whose monthly price is [price_id], its bare key is
    among the segments, and no tag [payingMonthly:<value>] is. *)
Lemma payingMonthly_is_a_flag :
  let c := Fixtures.store true true (Fixtures.answer Fixtures.bundle7) in
  (exists r,
     result (customerToSegmentOrg c "org1" "price_solo_m" None) = Normal r
     /\ In "payingMonthly" (deleteSegments r))
  /\ (exists r,
        result (customerToSegmentOrg c "org1" "price_solo_m"
                  (Some Fixtures.solo)) = Normal r
        /\ In "payingMonthly" (segments r)
        /\ forall t, In t (segments r) ->
                     String.prefix "payingMonthly:" t = false).
Proof.
  intros c. split.
  - eexists. split; [reflexivity |]. cbn. auto 20.
  - eexists. split; [reflexivity |]. split; [cbn; auto 20 |].
    intros t Ht. cbn in Ht.
    repeat (destruct Ht as [<- | Ht]; [reflexivity |]). destruct Ht.
Qed.

(** C8, amended. [plan] is the one string-valued property: the tag
    [plan:<name>] is among the segments exactly when the name of the plan
    row is not empty, and with an empty name (or no plan row) no tag of
    [plan] is in either list.  [payingMonthly] is a boolean, true when the
    monthly price of the plan row is [price_id]: its bare key is among the
    segments when it is true and among the segments to delete when it is
    false, and no tag [payingMonthly:<value>] is in either list. *)
Theorem plan_and_payingMonthly_tags (c : Backend) (orgId price_id : string)
    (row : option Plan.t) :
  exists r,
    result (customerToSegmentOrg c orgId price_id row) = Normal r
    /\ (name_or_empty row <> "" ->
        In ("plan:" ++ name_or_empty row)%string (segments r))
    /\ (forall t, String.prefix "plan" t = true -> In t (segments r) ->
          name_or_empty row <> ""
          /\ t = ("plan:" ++ name_or_empty row)%string)
    /\ (forall t, String.prefix "plan" t = true ->
          ~ In t (deleteSegments r))
    /\ (price_m_id_is row price_id = true ->
        In "payingMonthly" (segments r)
        /\ ~ In "payingMonthly" (deleteSegments r))
    /\ (price_m_id_is row price_id = false ->
        In "payingMonthly" (deleteSegments r)
        /\ ~ In "payingMonthly" (segments r))
    /\ (forall t, String.prefix "payingMonthly:" t = true ->
          ~ In t (segments r) /\ ~ In t (deleteSegments r)).
Proof.
  destruct (customerToSegmentOrg_total c orgId price_id row)
    as (o & -> & _ & Hm & Hp).
  exists (processSegments o). split; [reflexivity |].
  rewrite <- Hm, <- Hp. clear Hm Hp.
  assert (Hkeys : forall t b, In (t, JsBoolean b) (Object_entries o) ->
                    String.prefix "plan" t = false
                    /\ String.prefix "payingMonthly:" t = false
                    /\ (t = "payingMonthly" -> b = payingMonthly o)).
  { intros t b H. cbn [Object_entries In] in H.
    repeat (destruct H as [H | H];
            [try discriminate H; injection H as <- <-; repeat split;
             (reflexivity || discriminate || (intros _; reflexivity)) |]).
    destruct H. }
  assert (Hmonthly : In ("payingMonthly", JsBoolean (payingMonthly o))
                       (Object_entries o)).
  { cbn. auto 20. }
  split; [| split; [| split; [| split; [| split]]]].
  - intros Hne. apply In_segments. right. auto.
  - intros t Ht Hs. apply In_segments in Hs.
    destruct Hs as [Hs | Hs]; [| exact Hs].
    apply Hkeys in Hs. destruct Hs as [Hs _]. congruence.
  - intros t Ht Hd. apply In_deleteSegments in Hd.
    apply Hkeys in Hd. destruct Hd as [Hd _]. congruence.
  - intros Htrue. rewrite Htrue in Hmonthly. split.
    + apply In_segments. left. exact Hmonthly.
    + intros Hd. apply In_deleteSegments in Hd.
      apply Hkeys in Hd. destruct Hd as (_ & _ & Hd).
      specialize (Hd eq_refl). congruence.
  - intros Hfalse. rewrite Hfalse in Hmonthly. split.
    + apply In_deleteSegments. exact Hmonthly.
    + intros Hs. apply In_segments in Hs. destruct Hs as [Hs | [_ Hs]].
      * apply Hkeys in Hs. destruct Hs as (_ & _ & Hs).
        specialize (Hs eq_refl). congruence.
      * discriminate Hs.
  - intros t Ht. split.
    + intros Hs. apply In_segments in Hs. destruct Hs as [Hs | [_ ->]].
      * apply Hkeys in Hs. destruct Hs as (_ & Hs & _). congruence.
      * discriminate Ht.
    + intros Hd. apply In_deleteSegments in Hd.
      apply Hkeys in Hd. destruct Hd as (_ & Hd & _). congruence.
Qed.

Lemma plan_and_payingMonthly_tags_witness :
  exists r,
    result (customerToSegmentOrg
              (Fixtures.store true true (Fixtures.answer Fixtures.bundle7))
              "org1" "price_solo_m" (Some Fixtures.solo)) = Normal r
    /\ In "plan:Solo" (segments r)
    /\ (In "payingMonthly" (segments r)
        /\ ~ In "payingMonthly" (deleteSegments r)).
Proof.
  destruct (plan_and_payingMonthly_tags
              (Fixtures.store true true (Fixtures.answer Fixtures.bundle7))
              "org1" "price_solo_m" (Some Fixtures.solo))
    as (r & Hr & Hplan & _ & _ & Hmonthly & _).
  exists r. split; [exact Hr |]. split.
  - apply Hplan. discriminate.
  - apply Hmonthly. reflexivity.
Defined.

(** ** The download-link handler *)

Lemma hasAppRight_total (c : Backend) (appId : option string)
    (userid : string) (right : user_min_right) :
  exists v,
    hasAppRight c appId userid right
    = (Normal v, calls (hasAppRight c appId userid right)).
Proof.
  destruct appId as [[| ch s] |]; cbn [hasAppRight];
    try (eexists; reflexivity).
  rewrite bind_await.
  destruct (error (has_app_right_userid c (String ch s) right userid));
    eexists; reflexivity.
Qed.

Lemma hasAppRight_calls (c : Backend) (appId userid : string)
    (right : user_min_right) :
  appId <> "" ->
  calls (hasAppRight c (Some appId) userid right)
  = [rpc "has_app_right_userid"
       [("appid", appId); ("right", right_name right); ("userid", userid)]].
Proof.
  intros Hne. destruct appId as [| ch s]; [contradiction |].
  cbn [hasAppRight]. rewrite bind_await.
  destruct (error (has_app_right_userid c (String ch s) right userid));
    reflexivity.
Qed.

Lemma bind_settle {A B : Type} (a : A) (k : A -> Eff B) :
  bind (settle (Normal a)) k = k a.
Proof. unfold bind, settle. destruct (k a) as [r l]. reflexivity. Qed.




(** C1: the code at the input where the claim fails.  For every request
    whose body decodes, whose token validates and whose [read] rights
    check passes, if the bundle query gives no row, or gives a row without
    its joined organisation, reading [created_by] throws before the error
    of the query is looked at; the [catch] block answers 500 with the
    status "Cannot get download link", not "Error unknow". *)
Theorem download_link_unresolved_bundle (c : Backend) (req : Request)
    (body : DataDownload.t) (authorization : string) (auth : Auth.t)
    (user : User.t) (allowed : option bool) :
  json req = Normal body ->
  header_authorization req = Some authorization ->
  authorization <> "" ->
  error (getUser c (bearer authorization)) = None ->
  data (getUser c (bearer authorization)) = Some auth ->
  Auth.user auth = Some user ->
  result (hasAppRight c (Some (DataDownload.app_id body))
            (User.id user) read) = Normal allowed ->
  or_false allowed = true ->
  (data (app_versions_single c (DataDownload.app_id body)
           (DataDownload.id body)) = None
   \/ exists bundle,
        data (app_versions_single c (DataDownload.app_id body)
                (DataDownload.id body)) = Some bundle
        /\ Bundle.owner_org bundle = None) ->
  result (download_link c req)
  = Normal {| http_status := 500;
              object := [("status", JsonString "Cannot get download link");
                         ("error", JSON_stringify (TypeError "created_by"))]
           |}.
Proof.
  intros Hj Hh Hne He Hd Hu Hr Htrue Hbundle.
  unfold download_link. rewrite Hj, bind_settle, Hh.
  destruct authorization as [| ch s]; [contradiction |].
  rewrite bind_await, He, Hd, Hu.
  destruct (hasAppRight_total c (Some (DataDownload.app_id body))
              (User.id user) read) as [v Hv].
  rewrite Hv in Hr. cbn in Hr. injection Hr as ->.
  rewrite Hv. rewrite bind_normal, Htrue. cbn [negb].
  rewrite bind_await.
  destruct Hbundle as [Hb | (bundle & Hb & Ho)]; rewrite Hb;
    [| rewrite Ho]; reflexivity.
Qed.

Lemma download_link_unresolved_bundle_witness :
  error (app_versions_single
           (Fixtures.store true true (Fixtures.failure "no rows"))
           "app123" 7%float) <> None
  /\ result (download_link
               (Fixtures.store true true (Fixtures.failure "no rows"))
               (Fixtures.request (Some "Bearer tok-alice") None))
     = Normal {| http_status := 500;
                 object := [("status",
                             JsonString "Cannot get download link");
                            ("error",
                             JSON_stringify (TypeError "created_by"))] |}.
Proof.
  split; [cbn; discriminate |].
  apply (download_link_unresolved_bundle
           (Fixtures.store true true (Fixtures.failure "no rows"))
           (Fixtures.request (Some "Bearer tok-alice") None) _
           "Bearer tok-alice" {| Auth.user := Some Fixtures.alice |}
           Fixtures.alice (Some true) eq_refl).
  - reflexivity.
  - discriminate.
  - reflexivity.
  - reflexivity.
  - reflexivity.
  - reflexivity.
  - reflexivity.
  - left. reflexivity.
Defined.

(** What the handler does answer "Error unknow" for, past the rights
    check: a bundle row whose joined organisation has no [created_by], or
    a signer that gives no URL. *)
Example download_link_owner_without_creator :
  result (download_link
            (Fixtures.store true true
               (Fixtures.answer
                  {| Bundle.id := 7%float; Bundle.app_id := "app123";
                     Bundle.name := "1.0.0";
                     Bundle.owner_org :=
                       Some {| OwnerOrg.created_by := None |} |}))
            (Fixtures.request (Some "Bearer tok-alice") None))
  = Normal {| http_status := 500;
              object := [("status", JsonString "Error unknow")] |}.
Proof. reflexivity. Qed.

Example download_link_orphan_bundle :
  result (download_link
            (Fixtures.store true true (Fixtures.answer Fixtures.orphan7))
            (Fixtures.request (Some "Bearer tok-alice") None))
  = Normal {| http_status := 500;
              object := [("status", JsonString "Cannot get download link");
                         ("error", JSON_stringify (TypeError "created_by"))]
           |}.
Proof. reflexivity. Qed.

(** C10. The answer of the handler does not depend on the optional
    [user_id] of the body: two requests that agree on the [authorization]
    header and whose bodies are the same, or decode and agree on [app_id],
    [storage_provider] and [id], get the same response, after the same
    remote calls.  The user that the rights check is asked about is the
    one of the validated token: when the token validates to [user] and
    [app_id] is not empty, the second remote call is the
    [has_app_right_userid] lookup for [user.id]. *)
Theorem download_link_ignores_user_id (c : Backend) (req1 req2 : Request) :
  header_authorization req1 = header_authorization req2 ->
  (json req1 = json req2
   \/ exists body1 body2,
        json req1 = Normal body1 /\ json req2 = Normal body2
        /\ DataDownload.app_id body1 = DataDownload.app_id body2
        /\ DataDownload.storage_provider body1
           = DataDownload.storage_provider body2
        /\ DataDownload.id body1 = DataDownload.id body2) ->
  download_link c req1 = download_link c req2
  /\ (forall body1 authorization auth user,
        json req1 = Normal body1 ->
        header_authorization req1 = Some authorization ->
        authorization <> "" ->
        error (getUser c (bearer authorization)) = None ->
        data (getUser c (bearer authorization)) = Some auth ->
        Auth.user auth = Some user ->
        DataDownload.app_id body1 <> "" ->
        forall req, req = req1 \/ req = req2 ->
          nth_error (calls (download_link c req)) 1
          = Some (rpc "has_app_right_userid"
                    [("appid", DataDownload.app_id body1);
                     ("right", "read"); ("userid", User.id user)])).
Proof.
  intros Hh Hbodies.
  assert (Heq : download_link c req1 = download_link c req2).
  { unfold download_link. rewrite Hh.
    destruct Hbodies as [-> | (body1 & body2 & -> & -> & Ha & _ & Hi)];
      [reflexivity |].
    rewrite !bind_settle, Ha, Hi. reflexivity. }
  split; [exact Heq |].
  intros body1 authorization auth user Hj Hh1 Hne He Hd Hu Happ req Hreq.
  assert (H1 : nth_error (calls (download_link c req1)) 1
               = Some (rpc "has_app_right_userid"
                         [("appid", DataDownload.app_id body1);
                          ("right", "read"); ("userid", User.id user)])).
  { unfold download_link. rewrite Hj, bind_settle, Hh1.
    destruct authorization as [| ch s]; [contradiction |].
    rewrite bind_await, He, Hd, Hu.
    destruct (hasAppRight_total c (Some (DataDownload.app_id body1))
                (User.id user) read) as [v Hv].
    rewrite Hv, bind_normal.
    rewrite (hasAppRight_calls c _ _ read Happ).
    unfold try_catch, calls, result. cbn [fst snd app].
    match goal with
    | |- context [fst ?m] => destruct (fst m) as [resp | e]
    end; [reflexivity |].
    destruct (serialisable e); reflexivity. }
  destruct Hreq as [-> | ->]; [exact H1 | rewrite <- Heq; exact H1].
Qed.

Lemma download_link_ignores_user_id_witness :
  download_link
    (Fixtures.store true true (Fixtures.answer Fixtures.bundle7))
    (Fixtures.request (Some "Bearer tok-alice") None)
  = download_link
      (Fixtures.store true true (Fixtures.answer Fixtures.bundle7))
      (Fixtures.request (Some "Bearer tok-alice") (Some "user-mallory"))
  /\ nth_error
       (calls (download_link
                 (Fixtures.store true true (Fixtures.answer Fixtures.bundle7))
                 (Fixtures.request (Some "Bearer tok-alice")
                    (Some "user-mallory")))) 1
     = Some (rpc "has_app_right_userid"
               [("appid", "app123"); ("right", "read");
                ("userid", "user-alice")]).
Proof.
  destruct (download_link_ignores_user_id
              (Fixtures.store true true (Fixtures.answer Fixtures.bundle7))
              (Fixtures.request (Some "Bearer tok-alice") None)
              (Fixtures.request (Some "Bearer tok-alice")
                 (Some "user-mallory"))
              eq_refl
              (or_intror
                 (ex_intro _ _
                    (ex_intro _ _
                       (conj eq_refl
                          (conj eq_refl
                             (conj eq_refl (conj eq_refl eq_refl))))))))
    as [Heq Hcall].
  split; [exact Heq |].
  apply (Hcall _ "Bearer tok-alice" {| Auth.user := Some Fixtures.alice |}
           Fixtures.alice eq_refl).
  - reflexivity.
  - discriminate.
  - reflexivity.
  - reflexivity.
  - reflexivity.
  - discriminate.
  - right. reflexivity.
Defined.

(** ** Further properties of [utils/supabase.ts] *)

(** X1. The five organisation flags never throw.  Each issues its one
    lookup; when the store reports an error the flag is [false] (0 days of
    trial), otherwise it is [data || false] ([data || 0]). *)
Theorem org_flags_fail_safe (c : Backend) (orgId : string) :
  isOnboardedOrg c orgId
  = (Normal match error (is_onboarded_org c orgId) with
            | Some _ => false
            | None => or_false (data (is_onboarded_org c orgId))
            end,
     [rpc "is_onboarded_org" [("orgid", orgId)]])
  /\ isCanceledOrg c orgId
     = (Normal match error (is_canceled_org c orgId) with
               | Some _ => false
               | None => or_false (data (is_canceled_org c orgId))
               end,
        [rpc "is_canceled_org" [("orgid", orgId)]])
  /\ isPayingOrg c orgId
     = (Normal match error (is_paying_org c orgId) with
               | Some _ => false
               | None => or_false (data (is_paying_org c orgId))
               end,
        [rpc "is_paying_org" [("orgid", orgId)]])
  /\ isGoodPlanOrg c orgId
     = (Normal match error (is_good_plan_v5_org c orgId) with
               | Some _ => false
               | None => or_false (data (is_good_plan_v5_org c orgId))
               end,
        [rpc "is_good_plan_v5_org" [("orgid", orgId)]])
  /\ isTrialOrg c orgId
     = (Normal match error (is_trial_org c orgId) with
               | Some _ => 0%float
               | None => or_zero (data (is_trial_org c orgId))
               end,
        [rpc "is_trial_org" [("orgid", orgId)]]).
Proof.
  unfold isOnboardedOrg, isCanceledOrg, isPayingOrg, isGoodPlanOrg,
    isTrialOrg, await, throwOnError, bind, try_catch.
  repeat split.
  - destruct (error (is_onboarded_org c orgId)); reflexivity.
  - destruct (error (is_canceled_org c orgId)); reflexivity.
  - destruct (error (is_paying_org c orgId)); reflexivity.
  - destruct (error (is_good_plan_v5_org c orgId)); reflexivity.
  - destruct (error (is_trial_org c orgId)); reflexivity.
Qed.

(** X2. [hasAppRight] grants (returns a truthy value) exactly when the app
    id is not empty and the lookup answered [true] without an error. *)
Theorem hasAppRight_granted_iff (c : Backend) (appId : option string)
    (userid : string) (right : user_min_right) :
  result (hasAppRight c appId userid right) = Normal (Some true)
  <-> exists a, appId = Some a /\ a <> ""
                /\ error (has_app_right_userid c a right userid) = None
                /\ data (has_app_right_userid c a right userid) = Some true.
Proof.
  destruct appId as [[| ch s] |]; cbn [hasAppRight].
  - split; [discriminate |]. intros (a & [= <-] & Hne & _). contradiction.
  - rewrite bind_await.
    destruct (error (has_app_right_userid c (String ch s) right userid))
      eqn:He; cbn [result fst ret].
    + split; [discriminate |].
      intros (a & [= <-] & _ & He' & _). congruence.
    + split.
      * intros [= Hd]. exists (String ch s). repeat split; auto.
        discriminate.
      * intros (a & [= <-] & _ & _ & Hd). rewrite Hd. reflexivity.
  - split; [discriminate |]. intros (a & Ha & _). discriminate.
Qed.

Lemma hasAppRight_granted_iff_witness :
  result (hasAppRight
            (Fixtures.store true true (Fixtures.answer Fixtures.bundle7))
            (Some "app123") "user-alice" read) = Normal (Some true).
Proof.
  apply (proj2 (hasAppRight_granted_iff
                  (Fixtures.store true true (Fixtures.answer Fixtures.bundle7))
                  (Some "app123") "user-alice" read)).
  exists "app123". repeat split; try reflexivity. discriminate.
Defined.

(** The object that [customerToSegmentOrg] hands to [processSegments], by
    the values of the five flags. *)
Lemma customerToSegmentOrg_flags (c : Backend) (orgId price_id : string)
    (row : option Plan.t) (isOnboarded isCanceled isPaying canUseMore : bool)
    (trialDaysLeft : number) :
  result (isOnboardedOrg c orgId) = Normal isOnboarded ->
  result (isCanceledOrg c orgId) = Normal isCanceled ->
  result (isTrialOrg c orgId) = Normal trialDaysLeft ->
  result (isPayingOrg c orgId) = Normal isPaying ->
  result (isGoodPlanOrg c orgId) = Normal canUseMore ->
  let base :=
    {| capgo := true; onboarded := isOnboarded; trial := false;
       trial7 := false; trial1 := false; trial0 := false; paying := false;
       payingMonthly := price_m_id_is row price_id;
       plan := name_or_empty row; overuse := false;
       canceled := isCanceled; issueSegment := false |} in
  result (customerToSegmentOrg c orgId price_id row)
  = Normal
      (processSegments
         (if negb isOnboarded then base
          else if negb isPaying && (1 <? trialDaysLeft)%float
                  && (trialDaysLeft <=? 7)%float
          then set_trial7 true (set_trial true base)
          else if negb isPaying && (trialDaysLeft =? 1)%float
          then set_trial1 true (set_trial true base)
          else if negb isPaying && negb canUseMore
          then set_trial0 true (set_trial true base)
          else if isPaying && negb canUseMore && present row
          then set_paying true (set_overuse true base)
          else if isPaying && canUseMore && present row
          then set_paying true base
          else set_issueSegment true base)).
Proof.
  unfold customerToSegmentOrg.
  destruct (isOnboardedOrg_total c orgId) as [b1 ->].
  destruct (isCanceledOrg_total c orgId) as [b2 ->].
  destruct (isTrialOrg_total c orgId) as [d ->].
  destruct (isPayingOrg_total c orgId) as [b3 ->].
  destruct (isGoodPlanOrg_total c orgId) as [b4 ->].
  cbn [result fst]. intros [= ->] [= ->] [= ->] [= ->] [= ->].
  rewrite !bind_normal. cbn [onboarded result fst].
  destruct isOnboarded; reflexivity.
Qed.

(** The bare key of a boolean property is a segment exactly when the
    property is true, and a segment to delete exactly when it is false. *)
Lemma flag_in_segments (o : Segments) (key : string) (b : bool) :
  In (key, JsBoolean b) (Object_entries o) ->
  (In key (segments (processSegments o)) <-> b = true)
  /\ (In key (deleteSegments (processSegments o)) <-> b = false).
Proof.
  intros Hin. rewrite In_segments, In_deleteSegments. split; split.
  - intros [H | [_ ->]].
    + pose proof (Object_entries_functional o key _ _ Hin H) as [= ->].
      reflexivity.
    + destruct (boolean_key_not_plan_tag o b (plan o) Hin).
  - intros ->. left. exact Hin.
  - intros H.
    pose proof (Object_entries_functional o key _ _ Hin H) as [= ->].
    reflexivity.
  - intros ->. exact Hin.
Qed.

Lemma segments_by_flag (o : Segments) :
  (In "onboarded" (segments (processSegments o)) <-> onboarded o = true)
  /\ (In "trial" (segments (processSegments o)) <-> trial o = true)
  /\ (In "trial7" (segments (processSegments o)) <-> trial7 o = true)
  /\ (In "trial1" (segments (processSegments o)) <-> trial1 o = true)
  /\ (In "trial0" (segments (processSegments o)) <-> trial0 o = true)
  /\ (In "paying" (segments (processSegments o)) <-> paying o = true)
  /\ (In "overuse" (segments (processSegments o)) <-> overuse o = true)
  /\ (In "issueSegment" (segments (processSegments o))
      <-> issueSegment o = true).
Proof.
  repeat split;
    (eapply flag_in_segments; [cbn; auto 20 | eassumption])
    || (intros H; eapply flag_in_segments; [cbn; auto 20 | exact H]).
Qed.

Ltac by_flags :=
  match goal with
  | |- context [processSegments ?o] =>
      destruct (segments_by_flag o)
        as (Honboarded & Htrial & Htrial7 & Htrial1 & Htrial0 & Hpaying
            & Hoveruse & Hissue);
      rewrite ?Honboarded, ?Htrial, ?Htrial7, ?Htrial1, ?Htrial0, ?Hpaying,
        ?Hoveruse, ?Hissue;
      clear Honboarded Htrial Htrial7 Htrial1 Htrial0 Hpaying Hoveruse Hissue
  end.

(** X3. The trial tiers.  With [window] the test [1 < trialDaysLeft <= 7]:
    "trial7" is a segment exactly for an onboarded, non-paying organisation
    inside the window; "trial1" exactly for one outside the window with 1
    day left; "trial0" exactly for one outside the window, not at 1 day,
    that cannot use more.  "trial" is a segment exactly when one of the
    three is, and no two of the three are segments together. *)
Theorem trial_tiers (c : Backend) (orgId price_id : string)
    (row : option Plan.t) (isOnboarded isCanceled isPaying canUseMore : bool)
    (trialDaysLeft : number) :
  result (isOnboardedOrg c orgId) = Normal isOnboarded ->
  result (isCanceledOrg c orgId) = Normal isCanceled ->
  result (isTrialOrg c orgId) = Normal trialDaysLeft ->
  result (isPayingOrg c orgId) = Normal isPaying ->
  result (isGoodPlanOrg c orgId) = Normal canUseMore ->
  let window := ((1 <? trialDaysLeft)%float && (trialDaysLeft <=? 7)%float)%bool
  in
  exists r,
    result (customerToSegmentOrg c orgId price_id row) = Normal r
    /\ (In "trial7" (segments r)
        <-> isOnboarded = true /\ isPaying = false /\ window = true)
    /\ (In "trial1" (segments r)
        <-> isOnboarded = true /\ isPaying = false /\ window = false
            /\ (trialDaysLeft =? 1)%float = true)
    /\ (In "trial0" (segments r)
        <-> isOnboarded = true /\ isPaying = false /\ window = false
            /\ (trialDaysLeft =? 1)%float = false /\ canUseMore = false)
    /\ (In "trial" (segments r)
        <-> In "trial7" (segments r) \/ In "trial1" (segments r)
            \/ In "trial0" (segments r))
    /\ ~ (In "trial7" (segments r) /\ In "trial1" (segments r))
    /\ ~ (In "trial7" (segments r) /\ In "trial0" (segments r))
    /\ ~ (In "trial1" (segments r) /\ In "trial0" (segments r)).
Proof.
  intros H1 H2 H3 H4 H5 window.
  eexists. split.
  { exact (customerToSegmentOrg_flags c orgId price_id row _ _ _ _ _
             H1 H2 H3 H4 H5). }
  rewrite <- andb_assoc. fold window.
  generalize window. intros w.
  generalize (trialDaysLeft =? 1)%float. intros e.
  clear.
  by_flags.
  destruct isOnboarded, isPaying, w, e, canUseMore, row; cbn;
    intuition congruence.
Qed.

Lemma trial_tiers_witness :
  let c days good :=
    {| getUser := Fixtures.identity;
       has_app_right_userid := fun _ _ _ => Fixtures.answer true;
       get_total_metrics := fun _ => Fixtures.failure "unused";
       get_plan_usage_percent_detailed := fun _ => Fixtures.failure "unused";
       is_good_plan_v5_org := fun _ => Fixtures.answer good;
       is_onboarded_org := fun _ => Fixtures.answer true;
       is_canceled_org := fun _ => Fixtures.answer false;
       is_paying_org := fun _ => Fixtures.answer false;
       is_trial_org := fun _ => Fixtures.answer days;
       get_current_plan_name_org := fun _ => Fixtures.answer "Solo";
       app_versions_single := fun _ _ => Fixtures.failure "unused";
       bundle_url := fun _ _ => Normal None |} in
  (exists r,
     result (customerToSegmentOrg (c 5%float true) "org1" "price_solo_m"
               (Some Fixtures.solo)) = Normal r
     /\ In "trial7" (segments r) /\ In "trial" (segments r)
     /\ ~ In "trial1" (segments r))
  /\ (exists r,
        result (customerToSegmentOrg (c 1%float true) "org1" "price_solo_m"
                  (Some Fixtures.solo)) = Normal r
        /\ In "trial1" (segments r) /\ ~ In "trial7" (segments r))
  /\ (exists r,
        result (customerToSegmentOrg (c 0%float false) "org1"
                  "price_solo_m" (Some Fixtures.solo)) = Normal r
        /\ In "trial0" (segments r) /\ In "trial" (segments r)).
Proof.
  intros c. split; [| split].
  - destruct (trial_tiers (c 5%float true) "org1" "price_solo_m"
                (Some Fixtures.solo) true false false true 5%float
                eq_refl eq_refl eq_refl eq_refl eq_refl)
      as (r & Hr & H7 & _ & _ & Ht & N71 & _).
    exists r. split; [exact Hr |].
    assert (I7 : In "trial7" (segments r)).
    { apply H7. repeat split. }
    split; [exact I7 |]. split.
    + apply Ht. left. exact I7.
    + intros I1. apply N71. split; assumption.
  - destruct (trial_tiers (c 1%float true) "org1" "price_solo_m"
                (Some Fixtures.solo) true false false true 1%float
                eq_refl eq_refl eq_refl eq_refl eq_refl)
      as (r & Hr & _ & H1 & _ & _ & N71 & _).
    exists r. split; [exact Hr |].
    assert (I1 : In "trial1" (segments r)).
    { apply H1. repeat split. }
    split; [exact I1 |].
    intros I7. apply N71. split; assumption.
  - destruct (trial_tiers (c 0%float false) "org1" "price_solo_m"
                (Some Fixtures.solo) true false false false 0%float
                eq_refl eq_refl eq_refl eq_refl eq_refl)
      as (r & Hr & _ & _ & H0 & Ht & _).
    exists r. split; [exact Hr |].
    assert (I0 : In "trial0" (segments r)).
    { apply H0. repeat split. }
    split; [exact I0 |]. apply Ht. right. right. exact I0.
Defined.

(** X4. The paying tiers.  "paying" is a segment exactly for an onboarded,
    paying organisation computed with a plan row; "overuse" exactly when,
    in addition, it cannot use more.  So "overuse" is never a segment
    without "paying", and "paying" never together with "trial". *)
Theorem paying_tiers (c : Backend) (orgId price_id : string)
    (row : option Plan.t) (isOnboarded isCanceled isPaying canUseMore : bool)
    (trialDaysLeft : number) :
  result (isOnboardedOrg c orgId) = Normal isOnboarded ->
  result (isCanceledOrg c orgId) = Normal isCanceled ->
  result (isTrialOrg c orgId) = Normal trialDaysLeft ->
  result (isPayingOrg c orgId) = Normal isPaying ->
  result (isGoodPlanOrg c orgId) = Normal canUseMore ->
  exists r,
    result (customerToSegmentOrg c orgId price_id row) = Normal r
    /\ (In "paying" (segments r)
        <-> isOnboarded = true /\ isPaying = true /\ present row = true)
    /\ (In "overuse" (segments r)
        <-> isOnboarded = true /\ isPaying = true /\ present row = true
            /\ canUseMore = false)
    /\ (In "overuse" (segments r) -> In "paying" (segments r))
    /\ ~ (In "paying" (segments r) /\ In "trial" (segments r)).
Proof.
  intros H1 H2 H3 H4 H5.
  eexists. split.
  { exact (customerToSegmentOrg_flags c orgId price_id row _ _ _ _ _
             H1 H2 H3 H4 H5). }
  generalize ((1 <? trialDaysLeft)%float). intros w1.
  generalize ((trialDaysLeft <=? 7)%float). intros w7.
  generalize (trialDaysLeft =? 1)%float. intros e.
  clear.
  by_flags.
  destruct isOnboarded, isPaying, w1, w7, e, canUseMore, row; cbn;
    intuition congruence.
Qed.

Lemma paying_tiers_witness :
  exists r,
    result (customerToSegmentOrg
              (Fixtures.store true true (Fixtures.answer Fixtures.bundle7))
              "org1" "price_solo_m" (Some Fixtures.solo)) = Normal r
    /\ In "paying" (segments r) /\ ~ In "overuse" (segments r).
Proof.
  destruct (paying_tiers
              (Fixtures.store true true (Fixtures.answer Fixtures.bundle7))
              "org1" "price_solo_m" (Some Fixtures.solo)
              true false true true 0%float
              eq_refl eq_refl eq_refl eq_refl eq_refl)
    as (r & Hr & Hp & Ho & _).
  exists r. split; [exact Hr |]. split.
  - apply Hp. repeat split.
  - intros H. apply Ho in H. destruct H as (_ & _ & _ & H). discriminate H.
Defined.

(** X5. The fallback.  "issueSegment" is a segment exactly for an onboarded
    organisation that is paying but computed without a plan row, or that is
    not paying, can use more, and whose days of trial are neither in the
    window [1 < days <= 7] nor equal to 1.  An organisation at the start of
    its trial (not paying, room left, more than 7 days) is therefore tagged
    "issueSegment" and not "trial". *)
Theorem issueSegment_cases (c : Backend) (orgId price_id : string)
    (row : option Plan.t) (isOnboarded isCanceled isPaying canUseMore : bool)
    (trialDaysLeft : number) :
  result (isOnboardedOrg c orgId) = Normal isOnboarded ->
  result (isCanceledOrg c orgId) = Normal isCanceled ->
  result (isTrialOrg c orgId) = Normal trialDaysLeft ->
  result (isPayingOrg c orgId) = Normal isPaying ->
  result (isGoodPlanOrg c orgId) = Normal canUseMore ->
  let window := ((1 <? trialDaysLeft)%float && (trialDaysLeft <=? 7)%float)%bool
  in
  exists r,
    result (customerToSegmentOrg c orgId price_id row) = Normal r
    /\ (In "issueSegment" (segments r)
        <-> isOnboarded = true
            /\ ((isPaying = true /\ row = None)
                \/ (isPaying = false /\ canUseMore = true /\ window = false
                    /\ (trialDaysLeft =? 1)%float = false)))
    /\ (In "issueSegment" (segments r) ->
        ~ In "trial" (segments r) /\ ~ In "paying" (segments r)
        /\ ~ In "overuse" (segments r)).
Proof.
  intros H1 H2 H3 H4 H5 window.
  eexists. split.
  { exact (customerToSegmentOrg_flags c orgId price_id row _ _ _ _ _
             H1 H2 H3 H4 H5). }
  rewrite <- andb_assoc. fold window.
  generalize window. intros w.
  generalize (trialDaysLeft =? 1)%float. intros e.
  clear.
  by_flags.
  destruct isOnboarded, isPaying, w, e, canUseMore, row; cbn;
    intuition congruence.
Qed.

Lemma issueSegment_cases_witness :
  let c :=
    {| getUser := Fixtures.identity;
       has_app_right_userid := fun _ _ _ => Fixtures.answer true;
       get_total_metrics := fun _ => Fixtures.failure "unused";
       get_plan_usage_percent_detailed := fun _ => Fixtures.failure "unused";
       is_good_plan_v5_org := fun _ => Fixtures.answer true;
       is_onboarded_org := fun _ => Fixtures.answer true;
       is_canceled_org := fun _ => Fixtures.answer false;
       is_paying_org := fun _ => Fixtures.answer false;
       is_trial_org := fun _ => Fixtures.answer 15%float;
       get_current_plan_name_org := fun _ => Fixtures.answer "Solo";
       app_versions_single := fun _ _ => Fixtures.failure "unused";
       bundle_url := fun _ _ => Normal None |} in
  exists r,
    result (customerToSegmentOrg c "org1" "price_solo_m"
              (Some Fixtures.solo)) = Normal r
    /\ In "issueSegment" (segments r) /\ ~ In "trial" (segments r).
Proof.
  intros c.
  destruct (issueSegment_cases c "org1" "price_solo_m" (Some Fixtures.solo)
              true false false true 15%float
              eq_refl eq_refl eq_refl eq_refl eq_refl)
    as (r & Hr & Hi & Hn).
  exists r. split; [exact Hr |].
  assert (H : In "issueSegment" (segments r)).
  { apply Hi. split; [reflexivity |]. right. repeat split. }
  split; [exact H | exact (proj1 (Hn H))].
Defined.

(** X6. An organisation that is not onboarded (or whose onboarding lookup
    fails) gets the base flags only, whatever its other flags: the
    segments are "capgo", then "payingMonthly", the plan tag and "canceled"
    when they apply; every lifecycle tag is among the segments to delete. *)
Theorem not_onboarded_base_flags (c : Backend) (orgId price_id : string)
    (row : option Plan.t) (isCanceled : bool) :
  result (isOnboardedOrg c orgId) = Normal false ->
  result (isCanceledOrg c orgId) = Normal isCanceled ->
  result (customerToSegmentOrg c orgId price_id row)
  = Normal
      {| segments :=
           ["capgo"]
           ++ (if price_m_id_is row price_id then ["payingMonthly"] else [])
           ++ match name_or_empty row with
              | "" => []
              | name => [("plan:" ++ name)%string]
              end
           ++ (if isCanceled then ["canceled"] else []);
         deleteSegments :=
           ["onboarded"; "trial"; "trial7"; "trial1"; "trial0"; "paying"]
           ++ (if price_m_id_is row price_id then [] else ["payingMonthly"])
           ++ ["overuse"]
           ++ (if isCanceled then [] else ["canceled"])
           ++ ["issueSegment"] |}.
Proof.
  intros H1 H2.
  destruct (isTrialOrg_total c orgId) as [d Hd].
  destruct (isPayingOrg_total c orgId) as [p Hp].
  destruct (isGoodPlanOrg_total c orgId) as [g Hg].
  rewrite (customerToSegmentOrg_flags c orgId price_id row false isCanceled
             p g d H1 H2).
  - cbn [negb]. unfold processSegments. cbn.
    destruct (price_m_id_is row price_id), (name_or_empty row), isCanceled;
      reflexivity.
  - rewrite Hd. reflexivity.
  - rewrite Hp. reflexivity.
  - rewrite Hg. reflexivity.
Qed.

Lemma not_onboarded_base_flags_witness :
  error (is_onboarded_org Fixtures.store_down "org1") <> None
  /\ result (customerToSegmentOrg Fixtures.store_down "org1" "price_solo_m"
               (Some Fixtures.solo))
     = Normal
         {| segments := ["capgo"; "payingMonthly"; "plan:Solo"];
            deleteSegments :=
              ["onboarded"; "trial"; "trial7"; "trial1"; "trial0"; "paying";
               "overuse"; "canceled"; "issueSegment"] |}.
Proof.
  split; [cbn; discriminate |].
  apply (not_onboarded_base_flags Fixtures.store_down "org1" "price_solo_m"
           (Some Fixtures.solo) false); reflexivity.
Defined.

(** X7. [customerToSegmentOrg] completes normally whatever the store
    answers, failures included, and "capgo" is always a segment.  It issues
    the same five lookups in the same order on every run, also for an
    organisation that is not onboarded, and writes nothing. *)
Theorem customerToSegmentOrg_lookups (c : Backend) (orgId price_id : string)
    (row : option Plan.t) :
  exists r,
    customerToSegmentOrg c orgId price_id row
    = (Normal r,
       [rpc "is_onboarded_org" [("orgid", orgId)];
        rpc "is_canceled_org" [("orgid", orgId)];
        rpc "is_trial_org" [("orgid", orgId)];
        rpc "is_paying_org" [("orgid", orgId)];
        rpc "is_good_plan_v5_org" [("orgid", orgId)]])
    /\ In "capgo" (segments r)
    /\ Forall (fun call => mutates call = false)
         (calls (customerToSegmentOrg c orgId price_id row)).
Proof.
  destruct (customerToSegmentOrg_total c orgId price_id row)
    as (o & Ho & Hcapgo & _).
  exists (processSegments o). rewrite Ho. split; [reflexivity |]. split.
  - apply (flag_in_segments o "capgo" (capgo o)); [cbn; auto | exact Hcapgo].
  - cbn. repeat constructor.
Qed.

(** ** The two lists of [processSegments] *)

Lemma processEntry_boolean (acc : SegmentLists) (key : string) (b : bool) :
  processEntry acc (key, JsBoolean b)
  = {| segments := segments acc ++ (if b then [key] else []);
       deleteSegments := deleteSegments acc ++ (if b then [] else [key]) |}.
Proof. destruct acc, b; cbn; rewrite app_nil_r; reflexivity. Qed.

Lemma processEntry_string (acc : SegmentLists) (key s : string) :
  processEntry acc (key, JsString s)
  = {| segments :=
         segments acc
         ++ match s with
            | "" => []
            | name => [(key ++ ":" ++ name)%string]
            end;
       deleteSegments := deleteSegments acc |}.
Proof. destruct acc, s; cbn; rewrite ?app_nil_r; reflexivity. Qed.

(** The lists in closed form: the keys come in the order of the
    properties of the object. *)
Lemma processSegments_lists (o : Segments) :
  segments (processSegments o)
  = (if capgo o then ["capgo"] else [])
    ++ (if onboarded o then ["onboarded"] else [])
    ++ (if trial o then ["trial"] else [])
    ++ (if trial7 o then ["trial7"] else [])
    ++ (if trial1 o then ["trial1"] else [])
    ++ (if trial0 o then ["trial0"] else [])
    ++ (if paying o then ["paying"] else [])
    ++ (if payingMonthly o then ["payingMonthly"] else [])
    ++ match plan o with
       | "" => []
       | name => [("plan:" ++ name)%string]
       end
    ++ (if overuse o then ["overuse"] else [])
    ++ (if canceled o then ["canceled"] else [])
    ++ (if issueSegment o then ["issueSegment"] else [])
  /\ deleteSegments (processSegments o)
     = (if capgo o then [] else ["capgo"])
       ++ (if onboarded o then [] else ["onboarded"])
       ++ (if trial o then [] else ["trial"])
       ++ (if trial7 o then [] else ["trial7"])
       ++ (if trial1 o then [] else ["trial1"])
       ++ (if trial0 o then [] else ["trial0"])
       ++ (if paying o then [] else ["paying"])
       ++ (if payingMonthly o then [] else ["payingMonthly"])
       ++ (if overuse o then [] else ["overuse"])
       ++ (if canceled o then [] else ["canceled"])
       ++ (if issueSegment o then [] else ["issueSegment"]).
Proof.
  unfold processSegments, Object_entries. cbn [fold_left].
  rewrite !processEntry_boolean, processEntry_string.
  cbn [segments deleteSegments].
  rewrite ?processEntry_boolean. cbn [segments deleteSegments].
  rewrite <- !app_assoc. split; destruct (plan o); reflexivity.
Qed.

Lemma NoDup_optional (b : bool) (key : string) (l : list string) :
  NoDup l -> ~ In key l -> NoDup ((if b then [key] else []) ++ l).
Proof.
  intros Hl Hk. destruct b; [constructor; assumption | exact Hl].
Qed.

Lemma In_optional (b : bool) (key x : string) (l : list string) :
  In x ((if b then [key] else []) ++ l) -> x = key \/ In x l.
Proof.
  destruct b; cbn; [intros [H | H]; auto | auto].
Qed.

Lemma NoDup_optional_not (b : bool) (key : string) (l : list string) :
  NoDup l -> ~ In key l -> NoDup ((if b then [] else [key]) ++ l).
Proof.
  intros Hl Hk. destruct b; [exact Hl | constructor; assumption].
Qed.

Lemma In_optional_not (b : bool) (key x : string) (l : list string) :
  In x ((if b then [] else [key]) ++ l) -> x = key \/ In x l.
Proof.
  destruct b; cbn; [auto | intros [H | H]; auto].
Qed.

Ltac not_later :=
  let H := fresh "H" in
  intros H;
  repeat (first
            [ apply In_optional in H; destruct H as [H | H];
              [discriminate H |]
            | apply In_optional_not in H; destruct H as [H | H];
              [discriminate H |]
            | destruct H as [H | H]; [discriminate H |] ]);
  try match type of H with
      | In _ (if ?b then _ else _) =>
          destruct b; cbn in H;
          try (destruct H as [H | H]; [discriminate H |])
      end;
  try contradiction.

(** X24. Neither list of [processSegments] has a duplicate, and together
    they have one tag per boolean property, plus the plan tag when the
    plan name is not empty: 11 or 12 tags in all. *)
Theorem processSegments_no_duplicates (o : Segments) :
  NoDup (segments (processSegments o))
  /\ NoDup (deleteSegments (processSegments o))
  /\ length (segments (processSegments o))
     + length (deleteSegments (processSegments o))
     = 11 + match plan o with
            | "" => 0
            | _ => 1
            end.
Proof.
  destruct (processSegments_lists o) as [-> ->].
  split; [| split].
  - destruct (plan o) as [| ch name].
    + cbn [app].
      repeat (apply NoDup_optional; [| not_later]).
      destruct (issueSegment o); repeat constructor; try (intros []).
    + repeat (apply NoDup_optional; [| not_later]).
      cbn [app]. constructor; [not_later |].
      repeat (apply NoDup_optional; [| not_later]).
      destruct (issueSegment o); repeat constructor; try (intros []).
  - repeat (apply NoDup_optional_not; [| not_later]).
    destruct (issueSegment o); repeat constructor; try (intros []).
  - rewrite !length_app.
    destruct (capgo o), (onboarded o), (trial o), (trial7 o); cbn [length];
      destruct (trial1 o), (trial0 o), (paying o), (payingMonthly o);
      cbn [length];
      destruct (overuse o), (canceled o), (issueSegment o), (plan o);
      reflexivity.
Qed.

(** ** Further properties of the download-link handler *)

Lemma bind_await_or_reject {A B : Type} (call : Call) (a : A)
    (k : A -> Eff B) :
  bind (await_or_reject call (Normal a)) k
  = (result (k a), call :: calls (k a)).
Proof. unfold bind, await_or_reject. destruct (k a). reflexivity. Qed.

(** One step of the case analysis of the handler: the next value that a
    [match] of the goal inspects is split. *)
Ltac handler_step :=
  rewrite ?bind_settle, ?bind_await, ?bind_normal, ?bind_await_or_reject;
  cbn [result calls fst snd negb];
  match goal with
  | |- context [match header_authorization ?r with _ => _ end] =>
      destruct (header_authorization r) as [[| ? ?] |] eqn:?
  | |- context [match error ?r with _ => _ end] =>
      destruct (error r) eqn:?
  | |- context [match data ?r with _ => _ end] =>
      destruct (data r) eqn:?
  | |- context [match Auth.user ?a with _ => _ end] =>
      destruct (Auth.user a) eqn:?
  | |- context [hasAppRight ?c ?a ?u ?r] =>
      let v := fresh "allowed" in
      let H := fresh "Hallowed" in
      let res := fresh "res" in
      let l := fresh "l" in
      destruct (hasAppRight_total c a u r) as [v H];
      destruct (hasAppRight c a u r) as [res l] eqn:?;
      cbn [calls snd] in H; injection H as ->
  | |- context [if negb (or_false ?v) then _ else _] =>
      destruct (or_false v) eqn:?
  | |- context [match Bundle.owner_org ?b with _ => _ end] =>
      destruct (Bundle.owner_org b) eqn:?
  | |- context [match OwnerOrg.created_by ?o with _ => _ end] =>
      destruct (OwnerOrg.created_by o) as [[| ? ?] |] eqn:?
  | |- context [await_or_reject ?call (bundle_url ?c ?o ?b)] =>
      destruct (bundle_url c o b) as [[?|] | ?] eqn:?
  end.

(** X8. The handler answers, or lets the [TypeError] of its own [catch]
    block escape.  For every request and every behaviour of its
    collaborators it either completes normally with status 200, 400 or
    500, or it throws the [TypeError] of [JSON.stringify]; the latter
    happens only when the value thrown by the decoding of the body or by
    the signer is one that [JSON.stringify] rejects. *)
Theorem download_link_answers_or_escapes (c : Backend) (req : Request) :
  (exists resp,
     result (download_link c req) = Normal resp
     /\ (http_status resp = 200 \/ http_status resp = 400
         \/ http_status resp = 500))
  \/ (exists e,
        serialisable e = false
        /\ result (download_link c req) = Throw (TypeError "JSON.stringify")
        /\ (json req = Throw e
            \/ exists ownerOrg bundle, bundle_url c ownerOrg bundle = Throw e)).
Proof.
  unfold download_link.
  destruct (json req) as [body | e] eqn:Hj.
  - repeat handler_step;
      try (left; eexists; (split; [reflexivity | cbn; auto]); fail).
    match goal with
    | H : bundle_url c _ _ = Throw ?e |- _ =>
        destruct (serialisable e) eqn:Hs;
        [ left; eexists; cbn; rewrite Hs;
          (split; [reflexivity | cbn; auto])
        | right; exists e; cbn; rewrite Hs;
          split; [reflexivity | split; [reflexivity | eauto]] ]
    end.
  - destruct (serialisable e) eqn:Hs.
    + left. eexists. cbn. rewrite Hs. split; [reflexivity | cbn; auto].
    + right. exists e. cbn. rewrite Hs. auto.
Qed.


(** X10. A download URL is issued exactly when every stage passes.  The
    handler answers 200 if and only if the body decodes, the header is
    present, the token validates to a user, the [read] rights lookup for
    that user on the [app_id] of the body answers [true], the bundle query
    answers a row without error whose organisation has a non-empty
    [created_by], and the signer, asked for that organisation and that
    row, gives a URL; the response then carries that URL and nothing
    else. *)
Theorem download_link_url_iff (c : Backend) (req : Request)
    (resp : HttpResponse) :
  (result (download_link c req) = Normal resp /\ http_status resp = 200)
  <-> exists body authorization auth user bundle owner_org ownerOrg d,
        json req = Normal body
        /\ header_authorization req = Some authorization
        /\ authorization <> ""
        /\ error (getUser c (bearer authorization)) = None
        /\ data (getUser c (bearer authorization)) = Some auth
        /\ Auth.user auth = Some user
        /\ result (hasAppRight c (Some (DataDownload.app_id body))
                     (User.id user) read) = Normal (Some true)
        /\ error (app_versions_single c (DataDownload.app_id body)
                    (DataDownload.id body)) = None
        /\ data (app_versions_single c (DataDownload.app_id body)
                   (DataDownload.id body)) = Some bundle
        /\ Bundle.owner_org bundle = Some owner_org
        /\ OwnerOrg.created_by owner_org = Some ownerOrg
        /\ ownerOrg <> ""
        /\ bundle_url c ownerOrg bundle = Normal (Some d)
        /\ resp = {| http_status := 200;
                     object := [("url", JsonString (UrlData.url d))] |}.
Proof.
  split.
  - unfold download_link.
    destruct (json req) as [body | e0] eqn:Hj;
      [| cbn; destruct (serialisable e0); intros [[= <-] Hs];
         discriminate Hs].
    rewrite bind_settle.
    destruct (header_authorization req) as [[| ch s] |] eqn:Hh;
      try (intros [[= <-] Hs]; discriminate Hs).
    rewrite bind_await.
    destruct (error (getUser c (bearer (String ch s)))) eqn:He;
      [intros [[= <-] Hs]; discriminate Hs |].
    destruct (data (getUser c (bearer (String ch s)))) as [auth |] eqn:Hd;
      [| intros [[= <-] Hs]; discriminate Hs].
    destruct (Auth.user auth) as [user |] eqn:Hu;
      [| intros [[= <-] Hs]; discriminate Hs].
    destruct (hasAppRight_total c (Some (DataDownload.app_id body))
                (User.id user) read) as [allowed Hallowed].
    rewrite Hallowed, bind_normal.
    destruct allowed as [[|] |]; cbn [or_false negb];
      try (intros [[= <-] Hs]; discriminate Hs).
    rewrite bind_await.
    destruct (data (app_versions_single c (DataDownload.app_id body)
                      (DataDownload.id body))) as [bundle |] eqn:Hb;
      [| intros [[= <-] Hs]; discriminate Hs].
    destruct (Bundle.owner_org bundle) as [org |] eqn:Ho;
      [| intros [[= <-] Hs]; discriminate Hs].
    destruct (error (app_versions_single c (DataDownload.app_id body)
                       (DataDownload.id body))) eqn:Hbe;
      [intros [[= <-] Hs]; discriminate Hs |].
    destruct (OwnerOrg.created_by org) as [[| o owner] |] eqn:Hc;
      try (intros [[= <-] Hs]; discriminate Hs).
    destruct (bundle_url c (String o owner) bundle) as [[d |] | e] eqn:Hsign;
      try (intros [[= <-] Hs]; discriminate Hs).
    + intros [[= <-] _].
      exists body, (String ch s), auth, user, bundle, org, (String o owner),
        d.
      rewrite Hallowed.
      repeat split; try assumption; try reflexivity; discriminate.
    + cbn. destruct (serialisable e); intros [[= <-] Hs]; discriminate Hs.
  - intros (body & authorization & auth & user & bundle & org & ownerOrg & d
            & Hj & Hh & Hne & He & Hd & Hu & Hr & Hbe & Hb & Ho & Hc & Hne'
            & Hsign & ->).
    split; [| reflexivity].
    unfold download_link. rewrite Hj, bind_settle, Hh.
    destruct authorization as [| ch s]; [contradiction |].
    rewrite bind_await, He, Hd, Hu.
    destruct (hasAppRight_total c (Some (DataDownload.app_id body))
                (User.id user) read) as [allowed Hallowed].
    rewrite Hallowed in Hr. cbn in Hr. injection Hr as ->.
    rewrite Hallowed, bind_normal. cbn [or_false negb].
    rewrite bind_await, Hb, Ho, Hbe, Hc.
    destruct ownerOrg as [| o owner]; [contradiction |].
    rewrite Hsign. reflexivity.
Qed.

Lemma download_link_url_iff_witness :
  result (download_link
            (Fixtures.store true true (Fixtures.answer Fixtures.bundle7))
            (Fixtures.request (Some "Bearer tok-alice") None))
  = Normal {| http_status := 200;
              object := [("url", JsonString "https://signed.example/7")] |}.
Proof.
  apply (proj2 (download_link_url_iff
                  (Fixtures.store true true (Fixtures.answer Fixtures.bundle7))
                  (Fixtures.request (Some "Bearer tok-alice") None)
                  {| http_status := 200;
                     object := [("url",
                                 JsonString "https://signed.example/7")] |})).
  eexists. exists "Bearer tok-alice", {| Auth.user := Some Fixtures.alice |},
    Fixtures.alice, Fixtures.bundle7, Fixtures.org_of_alice, "user-alice",
    {| UrlData.url := "https://signed.example/7" |}.
  repeat split; try reflexivity; discriminate.
Defined.

(** X11. The failures of the signer, for a request that passed every
    earlier stage.  When the signer gives no URL the answer is 500 "Error
    unknow".  When the signer throws a value that [JSON.stringify]
    accepts, the [catch] block answers 500 "Cannot get download link" with
    the thrown value serialised.  When it throws a value that
    [JSON.stringify] rejects, the handler answers nothing: the [TypeError]
    of [JSON.stringify] is thrown out of the [catch] block. *)
Theorem download_link_signer_failure (c : Backend) (req : Request)
    (body : DataDownload.t) (authorization : string) (auth : Auth.t)
    (user : User.t) (bundle : Bundle.t) (owner_org : OwnerOrg.t)
    (ownerOrg : string) :
  json req = Normal body ->
  header_authorization req = Some authorization ->
  authorization <> "" ->
  error (getUser c (bearer authorization)) = None ->
  data (getUser c (bearer authorization)) = Some auth ->
  Auth.user auth = Some user ->
  result (hasAppRight c (Some (DataDownload.app_id body))
            (User.id user) read) = Normal (Some true) ->
  error (app_versions_single c (DataDownload.app_id body)
           (DataDownload.id body)) = None ->
  data (app_versions_single c (DataDownload.app_id body)
          (DataDownload.id body)) = Some bundle ->
  Bundle.owner_org bundle = Some owner_org ->
  OwnerOrg.created_by owner_org = Some ownerOrg ->
  ownerOrg <> "" ->
  (bundle_url c ownerOrg bundle = Normal None ->
   result (download_link c req)
   = Normal {| http_status := 500;
               object := [("status", JsonString "Error unknow")] |})
  /\ (forall e, bundle_url c ownerOrg bundle = Throw e ->
      serialisable e = true ->
      result (download_link c req)
      = Normal {| http_status := 500;
                  object := [("status", JsonString "Cannot get download link");
                             ("error", JSON_stringify e)] |})
  /\ (forall e, bundle_url c ownerOrg bundle = Throw e ->
      serialisable e = false ->
      result (download_link c req) = Throw (TypeError "JSON.stringify")).
Proof.
  intros Hj Hh Hne He Hd Hu Hr Hbe Hb Ho Hc Hne'.
  assert (Hrun : forall answer, bundle_url c ownerOrg bundle = answer ->
            result (download_link c req)
            = match answer with
              | Normal None =>
                  Normal {| http_status := 500;
                            object := [("status", JsonString "Error unknow")]
                         |}
              | Normal (Some d) =>
                  Normal {| http_status := 200;
                            object := [("url", JsonString (UrlData.url d))] |}
              | Throw e =>
                  if serialisable e
                  then Normal {| http_status := 500;
                                 object :=
                                   [("status",
                                     JsonString "Cannot get download link");
                                    ("error", JSON_stringify e)] |}
                  else Throw (TypeError "JSON.stringify")
              end).
  { intros answer Hsign. unfold download_link. rewrite Hj, bind_settle, Hh.
    destruct authorization as [| ch s]; [contradiction |].
    rewrite bind_await, He, Hd, Hu.
    destruct (hasAppRight_total c (Some (DataDownload.app_id body))
                (User.id user) read) as [allowed Hallowed].
    rewrite Hallowed in Hr. cbn in Hr. injection Hr as ->.
    rewrite Hallowed, bind_normal. cbn [or_false negb].
    rewrite bind_await, Hb, Ho, Hbe, Hc.
    destruct ownerOrg as [| o owner]; [contradiction |].
    rewrite Hsign. destruct answer as [[d |] | e]; try reflexivity.
    cbn. destruct (serialisable e); reflexivity. }
  split; [| split].
  - intros Hsign. exact (Hrun _ Hsign).
  - intros e Hsign Hs. rewrite (Hrun _ Hsign), Hs. reflexivity.
  - intros e Hsign Hs. rewrite (Hrun _ Hsign), Hs. reflexivity.
Qed.

Lemma download_link_signer_failure_witness :
  let store thrown :=
    {| getUser := Fixtures.identity;
       has_app_right_userid := fun _ _ _ => Fixtures.answer true;
       get_total_metrics := fun _ => Fixtures.failure "unused";
       get_plan_usage_percent_detailed := fun _ => Fixtures.failure "unused";
       is_good_plan_v5_org := fun _ => Fixtures.answer true;
       is_onboarded_org := fun _ => Fixtures.answer true;
       is_canceled_org := fun _ => Fixtures.answer false;
       is_paying_org := fun _ => Fixtures.answer true;
       is_trial_org := fun _ => Fixtures.answer 0%float;
       get_current_plan_name_org := fun _ => Fixtures.answer "Solo";
       app_versions_single := fun _ _ => Fixtures.answer Fixtures.bundle7;
       bundle_url := fun _ _ => Throw thrown |} in
  result (download_link (store (Rejection "signer unreachable"))
            (Fixtures.request (Some "Bearer tok-alice") None))
  = Normal {| http_status := 500;
              object := [("status", JsonString "Cannot get download link");
                         ("error",
                          JSON_stringify (Rejection "signer unreachable"))]
           |}
  /\ result (download_link (store (Unserialisable "circular structure"))
               (Fixtures.request (Some "Bearer tok-alice") None))
     = Throw (TypeError "JSON.stringify").
Proof.
  intros store. split.
  - apply (proj1 (proj2 (download_link_signer_failure
                  (store (Rejection "signer unreachable"))
                  (Fixtures.request (Some "Bearer tok-alice") None) _
                  "Bearer tok-alice" {| Auth.user := Some Fixtures.alice |}
                  Fixtures.alice Fixtures.bundle7 Fixtures.org_of_alice
                  "user-alice"
                  eq_refl eq_refl ltac:(discriminate) eq_refl eq_refl eq_refl
                  eq_refl eq_refl eq_refl eq_refl eq_refl
                  ltac:(discriminate)))); reflexivity.
  - apply (proj2 (proj2 (download_link_signer_failure
                  (store (Unserialisable "circular structure"))
                  (Fixtures.request (Some "Bearer tok-alice") None) _
                  "Bearer tok-alice" {| Auth.user := Some Fixtures.alice |}
                  Fixtures.alice Fixtures.bundle7 Fixtures.org_of_alice
                  "user-alice"
                  eq_refl eq_refl ltac:(discriminate) eq_refl eq_refl eq_refl
                  eq_refl eq_refl eq_refl eq_refl eq_refl
                  ltac:(discriminate))) (Unserialisable "circular structure"));
      reflexivity.
Defined.

(** ** The bearer token *)

Lemma prefix_Bearer_has_space (s : string) :
  String.prefix "Bearer " s = true -> In " "%char (list_ascii_of_string s).
Proof.
  intros H.
  repeat (destruct s as [| ? s]; cbn -[ascii_dec] in H; [discriminate H |];
          match type of H with
          | (if ascii_dec ?a ?b then _ else _) = true =>
              destruct (ascii_dec a b); [subst | discriminate H]
          end).
  cbn. auto 10.
Qed.

Lemma split_go_no_separator (s : string) :
  ~ In " "%char (list_ascii_of_string s) ->
  forall cur, split_go "Bearer " s 0 cur = [(cur ++ s)%string].
Proof.
  induction s as [| ch rest IH]; intros Hs cur; cbn [split_go].
  - replace (cur ++ "")%string with cur; [reflexivity |].
    induction cur as [| a cur IHc]; cbn; [reflexivity | congruence].
  - destruct (String.prefix "Bearer " (String ch rest)) eqn:Hp.
    + destruct (Hs (prefix_Bearer_has_space _ Hp)).
    + rewrite IH.
      * f_equal. clear. induction cur as [| a cur IHc]; cbn;
          [reflexivity | congruence].
      * intros Hin. apply Hs. cbn. auto.
Qed.

(** X12. Reading the token of the header.  For a token without a space
    (such as a JWT), the header ["Bearer " ++ token] gives back exactly the
    token; a header without any space gives no token at all, so the
    identity provider is then asked about [undefined]. *)
Theorem bearer_token (token : string) :
  ~ In " "%char (list_ascii_of_string token) ->
  bearer ("Bearer " ++ token) = Some token
  /\ bearer token = None.
Proof.
  intros Hs. unfold bearer, split. split.
  - destruct token as [| ch rest]; [reflexivity |].
    change (split_go "Bearer " ("Bearer " ++ String ch rest) 0 "")
      with ("" :: split_go "Bearer " (String ch rest) 0 "").
    rewrite (split_go_no_separator _ Hs). reflexivity.
  - rewrite (split_go_no_separator token Hs). reflexivity.
Qed.

Lemma bearer_token_witness :
  bearer "Bearer eyJhbGciOi.eyJzdWIi.c2lnbmF0dXJl"
  = Some "eyJhbGciOi.eyJzdWIi.c2lnbmF0dXJl"
  /\ bearer "eyJhbGciOi.eyJzdWIi.c2lnbmF0dXJl" = None.
Proof.
  apply (bearer_token "eyJhbGciOi.eyJzdWIi.c2lnbmF0dXJl").
  cbn. intros H.
  repeat (destruct H as [H | H]; [discriminate H |]). exact H.
Defined.

(** ** Table queries and writes *)

Lemma outcome_bind_await {A B : Type} (op : StoreOp) (a : A)
    (k : A -> Run B) :
  run_bind (run_await op a) k = (outcome (k a), op :: ops (k a)).
Proof. unfold run_bind, run_await. destruct (k a). reflexivity. Qed.

Lemma limit_positive : 0 < limit.
Proof. unfold limit. lia. Qed.

Lemma page_width (page : nat) :
  (page + 1) * limit - 1 - page * limit + 1 = limit.
Proof. pose proof limit_positive. lia. Qed.

Lemma firstn_add {A : Type} (n m : nat) (l : list A) :
  firstn (n + m) l = firstn n l ++ firstn m (skipn n l).
Proof.
  revert l. induction n as [| n IH]; intros l; [reflexivity |].
  destruct l as [| x l]; cbn.
  - destruct m; reflexivity.
  - rewrite IH. reflexivity.
Qed.

Lemma firstn_positive {A : Type} (n : nat) (x : A) (l : list A) :
  0 < n -> firstn n (x :: l) = x :: firstn (n - 1) l.
Proof.
  intros Hn. destruct n as [| n]; [lia |].
  cbn. rewrite Nat.sub_0_r. reflexivity.
Qed.

(** The loop of [getAppsFromSB] over a store that answers each range with
    the rows of that range. *)
Lemma getAppsFromSB_loop_complete (c : Store) (rows : list AppRow.t) :
  (forall from to,
     apps_range c from to
     = {| data := Some (firstn (to - from + 1) (skipn from rows));
          error := None |}) ->
  forall fuel page apps,
    length (skipn (page * limit) rows) + limit <= fuel * limit ->
    apps = map AppRow.app_id (firstn (page * limit) rows) ->
    outcome (getAppsFromSB_loop fuel c page apps)
    = Normal (Some (map AppRow.app_id rows)).
Proof.
  intros Hc. pose proof limit_positive as Hl.
  induction fuel as [| fuel IH]; intros page apps Hfuel Happs.
  - rewrite Nat.mul_0_l in Hfuel. lia.
  - cbn [getAppsFromSB_loop]. rewrite outcome_bind_await, Hc, page_width.
    cbn [error data outcome fst].
    destruct (skipn (page * limit) rows) as [| x rest] eqn:Hrest.
    + rewrite firstn_nil. cbn. rewrite Happs.
      rewrite <- (firstn_skipn (page * limit) rows) at 2.
      rewrite Hrest, app_nil_r. reflexivity.
    + rewrite (firstn_positive limit x rest Hl).
      rewrite <- (firstn_positive limit x rest Hl), <- Hrest.
      apply IH.
      * replace ((page + 1) * limit) with (limit + page * limit) by lia.
        rewrite <- skipn_skipn, length_skipn, Hrest.
        cbn [length] in *.
        rewrite Nat.mul_succ_l in Hfuel. clear IH.
        destruct fuel as [| fuel];
          [rewrite Nat.mul_0_l in * | rewrite Nat.mul_succ_l in *]; lia.
      * replace ((page + 1) * limit) with (page * limit + limit) by lia.
        rewrite firstn_add, map_app, Happs. reflexivity.
Qed.

(** X13. Reading all apps.  Over a store that answers each range with the
    rows of that range of its [apps] table, [getAppsFromSB] returns the
    [app_id] of every row, in table order, once the loop may run for one
    page more than the table fills. *)
Theorem getAppsFromSB_complete (c : Store) (rows : list AppRow.t)
    (fuel : nat) :
  (forall from to,
     apps_range c from to
     = {| data := Some (firstn (to - from + 1) (skipn from rows));
          error := None |}) ->
  length rows + limit <= fuel * limit ->
  outcome (getAppsFromSB fuel c) = Normal (Some (map AppRow.app_id rows)).
Proof.
  intros Hc Hfuel. unfold getAppsFromSB.
  apply (getAppsFromSB_loop_complete c rows Hc); [exact Hfuel | reflexivity].
Qed.

Lemma getAppsFromSB_complete_witness :
  outcome (getAppsFromSB 2
             (StoreFixtures.store
                (StoreFixtures.rows_of ["app.one"; "app.two"; "app.three"])))
  = Normal (Some ["app.one"; "app.two"; "app.three"]).
Proof.
  apply (getAppsFromSB_complete
           (StoreFixtures.store
              (StoreFixtures.rows_of ["app.one"; "app.two"; "app.three"]))
           (StoreFixtures.rows_of ["app.one"; "app.two"; "app.three"]) 2).
  - reflexivity.
  - unfold limit. cbn. lia.
Defined.

Lemma getAppsFromSB_loop_failure (c : Store) (pages : nat -> list AppRow.t)
    (k : nat) :
  (forall p, p < k ->
     error (apps_range c (p * limit) ((p + 1) * limit - 1)) = None
     /\ data (apps_range c (p * limit) ((p + 1) * limit - 1))
        = Some (pages p)
     /\ pages p <> []) ->
  error (apps_range c (k * limit) ((k + 1) * limit - 1)) <> None ->
  forall fuel page apps,
    page <= k -> k - page < fuel ->
    outcome (getAppsFromSB_loop fuel c page apps)
    = Normal (Some (apps ++ flat_map (fun p => map AppRow.app_id (pages p))
                              (seq page (k - page))))
    /\ length (ops (getAppsFromSB_loop fuel c page apps)) = k - page + 1.
Proof.
  intros Hpages Hk.
  induction fuel as [| fuel IH]; intros page apps Hle Hfuel; [lia |].
  cbn [getAppsFromSB_loop]. rewrite outcome_bind_await.
  cbn [outcome ops fst snd length].
  destruct (Nat.eq_dec page k) as [-> | Hne].
  - destruct (error (apps_range c (k * limit) ((k + 1) * limit - 1)));
      [| contradiction].
    rewrite Nat.sub_diag. cbn. rewrite app_nil_r. split; reflexivity.
  - destruct (Hpages page ltac:(lia)) as (He & Hd & Hnonempty).
    rewrite He, Hd.
    destruct (pages page) as [| r rs] eqn:Hpage; [contradiction |].
    destruct (IH (page + 1) (apps ++ map AppRow.app_id (r :: rs))
                ltac:(lia) ltac:(lia)) as [IHo IHn].
    unfold outcome, ops in *. rewrite IHo, IHn.
    replace (k - page) with (S (k - (page + 1))) by lia.
    cbn [seq flat_map]. rewrite Hpage, <- app_assoc.
    replace (S page) with (page + 1) by lia.
    split; [reflexivity | lia].
Qed.

(** X14. A failing page ends the reading silently.  When the pages before
    page [k] are answered without error and are not empty, and page [k]
    fails, [getAppsFromSB] completes normally with the apps of the pages
    before [k] only, after [k + 1] queries: the caller cannot tell this
    partial list from a complete one. *)
Theorem getAppsFromSB_stops_at_failure (c : Store)
    (pages : nat -> list AppRow.t) (k fuel : nat) :
  (forall p, p < k ->
     error (apps_range c (p * limit) ((p + 1) * limit - 1)) = None
     /\ data (apps_range c (p * limit) ((p + 1) * limit - 1))
        = Some (pages p)
     /\ pages p <> []) ->
  error (apps_range c (k * limit) ((k + 1) * limit - 1)) <> None ->
  k < fuel ->
  outcome (getAppsFromSB fuel c)
  = Normal (Some (flat_map (fun p => map AppRow.app_id (pages p)) (seq 0 k)))
  /\ length (ops (getAppsFromSB fuel c)) = k + 1.
Proof.
  intros Hpages Hk Hfuel. unfold getAppsFromSB.
  destruct (getAppsFromSB_loop_failure c pages k Hpages Hk fuel 0 []
              ltac:(lia) ltac:(lia)) as [Ho Hn].
  rewrite Nat.sub_0_r in Ho, Hn. split; assumption.
Qed.

Lemma getAppsFromSB_stops_at_failure_witness :
  let c :=
    {| apps_range := fun from _ =>
         match from with
         | 0 => Fixtures.answer
                  (StoreFixtures.rows_of ["app.one"; "app.two"])
         | _ => Fixtures.failure "statement timeout"
         end;
       apps_owned := apps_owned StoreFixtures.down;
       check_min_rights := check_min_rights StoreFixtures.down;
       is_admin := is_admin StoreFixtures.down;
       is_allowed_action_org := is_allowed_action_org StoreFixtures.down;
       is_onboarding_needed_org :=
         is_onboarding_needed_org StoreFixtures.down;
       apikeys_count := apikeys_count StoreFixtures.down;
       apikeys_insert := apikeys_insert StoreFixtures.down;
       channels_upsert := channels_upsert StoreFixtures.down;
       plans_named := plans_named StoreFixtures.down;
       stripe_info_insert := stripe_info_insert StoreFixtures.down;
       orgs_update := orgs_update StoreFixtures.down;
       createCustomer := createCustomer StoreFixtures.down;
       randomUUID := randomUUID StoreFixtures.down;
       iso_in_days := iso_in_days StoreFixtures.down |} in
  outcome (getAppsFromSB 2 c) = Normal (Some ["app.one"; "app.two"])
  /\ length (ops (getAppsFromSB 2 c)) = 2.
Proof.
  intros c.
  apply (getAppsFromSB_stops_at_failure c
           (fun _ => StoreFixtures.rows_of ["app.one"; "app.two"]) 1 2).
  - intros p Hp. destruct p as [| p]; [| lia].
    split; [reflexivity |]. split; [reflexivity | discriminate].
  - cbn. discriminate.
  - lia.
Defined.

Lemma getAppsFromSB_loop_only_reads (c : Store) (fuel : nat) :
  forall page apps,
    Forall (fun op =>
              writes op = false
              /\ exists p,
                   op = op_select "apps" "app_id" []
                          (Some (p * limit, p * limit + (limit - 1))))
      (ops (getAppsFromSB_loop fuel c page apps)).
Proof.
  induction fuel as [| fuel IH]; intros page apps; [constructor |].
  cbn [getAppsFromSB_loop]. rewrite outcome_bind_await. cbn [ops snd].
  constructor.
  - split; [reflexivity |]. exists page.
    pose proof limit_positive.
    replace ((page + 1) * limit - 1) with (page * limit + (limit - 1)) by lia.
    reflexivity.
  - destruct (error (apps_range c (page * limit) ((page + 1) * limit - 1)));
      [constructor |].
    destruct (data (apps_range c (page * limit) ((page + 1) * limit - 1)))
      as [[| r rs] |]; try constructor.
    apply IH.
Qed.

(** X15. [getAppsFromSB] only reads: whatever the store answers and
    however long the loop runs, each of its operations is a [select] of
    [app_id] on [apps] over a range of [limit] rows starting at a multiple
    of [limit], and none writes. *)
Theorem getAppsFromSB_only_reads (c : Store) (fuel : nat) :
  Forall (fun op =>
            writes op = false
            /\ exists page,
                 op = op_select "apps" "app_id" []
                        (Some (page * limit, page * limit + (limit - 1))))
    (ops (getAppsFromSB fuel c)).
Proof. apply getAppsFromSB_loop_only_reads. Qed.

Lemma getAppsFromSB_loop_never_ends (c : Store) :
  (forall from to,
     error (apps_range c from to) = None
     /\ exists r rs, data (apps_range c from to) = Some (r :: rs)) ->
  forall fuel page apps,
    outcome (getAppsFromSB_loop fuel c page apps) = Normal None
    /\ length (ops (getAppsFromSB_loop fuel c page apps)) = fuel.
Proof.
  intros Hc. induction fuel as [| fuel IH]; intros page apps;
    [split; reflexivity |].
  cbn [getAppsFromSB_loop]. rewrite outcome_bind_await.
  destruct (Hc (page * limit) ((page + 1) * limit - 1))
    as (He & r & rs & Hd).
  rewrite He, Hd. cbn [outcome ops fst snd length].
  destruct (IH (page + 1) (apps ++ map AppRow.app_id (r :: rs))) as [Ho Hn].
  unfold outcome, ops in *. rewrite Ho, Hn. split; reflexivity.
Qed.

(** X16. The loop of [getAppsFromSB] ends only on an empty or failing
    page.  Over a store that answers every range with some rows (one that
    ignores the range, say), the loop has not ended after any number of
    rounds, and has issued one query per round. *)
Theorem getAppsFromSB_never_ends (c : Store) (fuel : nat) :
  (forall from to,
     error (apps_range c from to) = None
     /\ exists r rs, data (apps_range c from to) = Some (r :: rs)) ->
  outcome (getAppsFromSB fuel c) = Normal None
  /\ length (ops (getAppsFromSB fuel c)) = fuel.
Proof.
  intros Hc. apply (getAppsFromSB_loop_never_ends c Hc).
Qed.

Lemma getAppsFromSB_never_ends_witness :
  let c :=
    {| apps_range := fun _ _ =>
         Fixtures.answer [{| AppRow.app_id := "app.one" |}];
       apps_owned := apps_owned StoreFixtures.down;
       check_min_rights := check_min_rights StoreFixtures.down;
       is_admin := is_admin StoreFixtures.down;
       is_allowed_action_org := is_allowed_action_org StoreFixtures.down;
       is_onboarding_needed_org :=
         is_onboarding_needed_org StoreFixtures.down;
       apikeys_count := apikeys_count StoreFixtures.down;
       apikeys_insert := apikeys_insert StoreFixtures.down;
       channels_upsert := channels_upsert StoreFixtures.down;
       plans_named := plans_named StoreFixtures.down;
       stripe_info_insert := stripe_info_insert StoreFixtures.down;
       orgs_update := orgs_update StoreFixtures.down;
       createCustomer := createCustomer StoreFixtures.down;
       randomUUID := randomUUID StoreFixtures.down;
       iso_in_days := iso_in_days StoreFixtures.down |} in
  outcome (getAppsFromSB 5 c) = Normal None
  /\ length (ops (getAppsFromSB 5 c)) = 5.
Proof.
  intros c. apply (getAppsFromSB_never_ends c 5).
  intros from to. split; [reflexivity |].
  exists {| AppRow.app_id := "app.one" |}, []. reflexivity.
Defined.

(** X17. [checkAppOwner] is fail-closed and never throws.  It answers
    [true] exactly when both ids are present and not empty and the store
    answers, without error, at least one row of [apps] for that user and
    that app; with a missing id it answers [false] without asking the
    store; it never writes. *)
Theorem checkAppOwner_iff (c : Store) (userId appId : option string) :
  (exists b, outcome (checkAppOwner c userId appId) = Normal b)
  /\ (outcome (checkAppOwner c userId appId) = Normal true
      <-> exists u a r rs,
            userId = Some u /\ appId = Some a /\ u <> "" /\ a <> ""
            /\ error (apps_owned c u a) = None
            /\ data (apps_owned c u a) = Some (r :: rs))
  /\ (not_str userId = true \/ not_str appId = true ->
      checkAppOwner c userId appId = (Normal false, []))
  /\ Forall (fun op => writes op = false) (ops (checkAppOwner c userId appId)).
Proof.
  destruct appId as [[| a1 s1] |], userId as [[| a2 s2] |];
    cbn [checkAppOwner];
    try (split; [exists false; reflexivity |];
         split; [split; [discriminate |];
                 intros (u & a & r & rs & Hu & Ha & Hnu & Hna & _);
                 try discriminate Hu; try discriminate Ha;
                 try (injection Hu as <-; contradiction);
                 try (injection Ha as <-; contradiction) |];
         split; [reflexivity | constructor]).
  rewrite outcome_bind_await.
  destruct (data (apps_owned c (String a2 s2) (String a1 s1)))
    as [[| r rs] |] eqn:Hd;
    destruct (error (apps_owned c (String a2 s2) (String a1 s1))) eqn:He;
    cbn [run_try run_ret outcome ops fst snd].
  all: split; [eexists; reflexivity |].
  all: split;
    [| split; [intros [H | H]; discriminate H | repeat constructor]].
  all: split;
    [ try discriminate;
      intros _; exists (String a2 s2), (String a1 s1), r, rs;
      repeat split; try assumption; discriminate
    | intros (u & a & r' & rs' & [= <-] & [= <-] & _ & _ & He' & Hd');
      congruence ].
Qed.

Lemma checkAppOwner_iff_witness :
  outcome (checkAppOwner (StoreFixtures.store []) (Some "user-alice")
             (Some "app123")) = Normal true
  /\ checkAppOwner (StoreFixtures.store []) None (Some "app123")
     = (Normal false, []).
Proof.
  split.
  - apply (proj1 (proj2 (checkAppOwner_iff (StoreFixtures.store [])
                           (Some "user-alice") (Some "app123")))).
    exists "user-alice", "app123", {| AppRow.app_id := "app123" |}, [].
    repeat split; try reflexivity; discriminate.
  - apply (proj1 (proj2 (proj2 (checkAppOwner_iff (StoreFixtures.store [])
                                  None (Some "app123"))))).
    left. reflexivity.
Defined.

(** X18. [hasOrgRight] always answers a boolean: it never throws and,
    unlike [hasAppRight], never hands a [null] of the store to its caller.
    It answers [true] exactly when the store answers [true] without
    error.  Its one operation is the [check_min_rights] lookup for the
    organisation as a whole (no channel, no app). *)
Theorem hasOrgRight_boolean (c : Store) (orgId userId : string)
    (right : user_min_right) :
  (exists b, outcome (hasOrgRight c orgId userId right) = Normal (Some b))
  /\ (outcome (hasOrgRight c orgId userId right) = Normal (Some true)
      <-> error (check_min_rights c right orgId userId) = None
          /\ data (check_min_rights c right orgId userId) = Some true)
  /\ ops (hasOrgRight c orgId userId right)
     = [op_rpc "check_min_rights"
          [("min_right", Some (right_name right)); ("org_id", Some orgId);
           ("user_id", Some userId); ("channel_id", None);
           ("app_id", None)]].
Proof.
  unfold hasOrgRight. rewrite outcome_bind_await.
  destruct (error (check_min_rights c right orgId userId));
    [| destruct (data (check_min_rights c right orgId userId))
         as [[|] |] eqn:Hd; rewrite ?Hd];
    cbn [run_ret outcome ops fst snd];
    (split; [eexists; reflexivity |]);
    (split; [| reflexivity]);
    (split; [try discriminate; auto | intros [He Hd']; congruence]).
Qed.

Lemma hasOrgRight_boolean_witness :
  outcome (hasOrgRight (StoreFixtures.store []) "org1" "user-alice" admin)
  = Normal (Some true).
Proof.
  apply (proj1 (proj2 (hasOrgRight_boolean (StoreFixtures.store []) "org1"
                         "user-alice" admin))).
  split; reflexivity.
Defined.

(** X19. Three checks, two behaviours on a store error: [isAdmin] throws
    [new Error(e.message)], while [isAllowedActionOrg] and
    [isOnboardingNeeded] answer [false].  Without an error each answers
    [data || false]. *)
Theorem admin_throws_others_default (c : Store) (id : string) :
  isAdmin c id
  = (match error (is_admin c id) with
     | Some e => Throw (Error (message e))
     | None => Normal (or_false (data (is_admin c id)))
     end,
     [op_rpc "is_admin" [("userid", Some id)]])
  /\ isAllowedActionOrg c id
     = (Normal match error (is_allowed_action_org c id) with
               | Some _ => false
               | None => or_false (data (is_allowed_action_org c id))
               end,
        [op_rpc "is_allowed_action_org" [("orgid", Some id)]])
  /\ isOnboardingNeeded c id
     = (Normal match error (is_onboarding_needed_org c id) with
               | Some _ => false
               | None => or_false (data (is_onboarding_needed_org c id))
               end,
        [op_rpc "is_onboarding_needed_org" [("orgid", Some id)]]).
Proof.
  unfold isAdmin, isAllowedActionOrg, isOnboardingNeeded.
  rewrite !outcome_bind_await. repeat split.
  - destruct (error (is_admin c id)); reflexivity.
  - destruct (error (is_allowed_action_org c id)); reflexivity.
  - destruct (error (is_onboarding_needed_org c id)); reflexivity.
Qed.

(** X20. [createApiKey] creates keys only for a user who has none.  When
    the count of the user's keys is positive nothing is written and the
    result is [undefined].  When it is zero, and also when the count
    fails ([count] is [null]), one insert writes exactly three keys for
    the user, of modes "all", "upload" and "read", with the next three
    random UUIDs. *)
Theorem createApiKey_cases (c : Store) (userId : string) :
  (forall n, count (apikeys_count c userId) = Some (S n) ->
     createApiKey c userId
     = (Normal None, [op_count "apikeys" "id" [("user_id", userId)]]))
  /\ (count (apikeys_count c userId) = Some 0
      \/ count (apikeys_count c userId) = None ->
      let rows :=
        [ [("user_id", userId); ("key", randomUUID c 0); ("mode", "all");
           ("name", "all")];
          [("user_id", userId); ("key", randomUUID c 1); ("mode", "upload");
           ("name", "upload")];
          [("user_id", userId); ("key", randomUUID c 2); ("mode", "read");
           ("name", "read")] ] in
      createApiKey c userId
      = (Normal (Some (apikeys_insert c rows)),
         [op_count "apikeys" "id" [("user_id", userId)];
          op_insert "apikeys" rows])).
Proof.
  unfold createApiKey, count_or_zero. rewrite outcome_bind_await. split.
  - intros n ->. reflexivity.
  - intros [-> | ->]; reflexivity.
Qed.

Lemma createApiKey_cases_witness :
  createApiKey StoreFixtures.down "user-bob"
  = (Normal (Some (Fixtures.failure "connection refused")),
     [op_count "apikeys" "id" [("user_id", "user-bob")];
      op_insert "apikeys"
        [ [("user_id", "user-bob"); ("key", "uuid"); ("mode", "all");
           ("name", "all")];
          [("user_id", "user-bob"); ("key", "uuid"); ("mode", "upload");
           ("name", "upload")];
          [("user_id", "user-bob"); ("key", "uuid"); ("mode", "read");
           ("name", "read")] ]]).
Proof.
  apply (proj2 (createApiKey_cases StoreFixtures.down "user-bob")).
  right. reflexivity.
Defined.

(** X21. [updateOrCreateChannel] validates before it writes.  When
    [app_id], [name] or [created_by] is missing or empty it rejects with
    [Error("missing app_id, name, or created_by")] and the store is not
    touched.  Otherwise it issues exactly one upsert on [channels], with
    the conflict target "app_id, name", and resolves to the answer of the
    store, an error answer included. *)
Theorem updateOrCreateChannel_validates (c : Store)
    (update : ChannelInsert.t) :
  (not_str (ChannelInsert.app_id update) = true
   \/ not_str (ChannelInsert.name update) = true
   \/ not_str (ChannelInsert.created_by update) = true ->
   updateOrCreateChannel c update
   = (Throw (Error "missing app_id, name, or created_by"), []))
  /\ (forall app_id name created_by,
        ChannelInsert.app_id update = Some app_id -> app_id <> "" ->
        ChannelInsert.name update = Some name -> name <> "" ->
        ChannelInsert.created_by update = Some created_by ->
        created_by <> "" ->
        let row := [("app_id", app_id); ("name", name);
                    ("created_by", created_by)] in
        updateOrCreateChannel c update
        = (Normal (channels_upsert c row),
           [op_upsert "channels" row (Some "app_id, name")])).
Proof.
  unfold updateOrCreateChannel. split.
  - destruct (ChannelInsert.app_id update) as [[| a1 s1] |],
      (ChannelInsert.name update) as [[| a2 s2] |],
      (ChannelInsert.created_by update) as [[| a3 s3] |];
      try reflexivity.
    intros [H | [H | H]]; discriminate H.
  - intros app_id name created_by -> Ha -> Hn -> Hc.
    destruct app_id; [contradiction |].
    destruct name; [contradiction |].
    destruct created_by; [contradiction |].
    reflexivity.
Qed.

Lemma updateOrCreateChannel_validates_witness :
  updateOrCreateChannel StoreFixtures.down
    {| ChannelInsert.app_id := Some "app123";
       ChannelInsert.name := Some "production";
       ChannelInsert.created_by := None |}
  = (Throw (Error "missing app_id, name, or created_by"), [])
  /\ updateOrCreateChannel StoreFixtures.down
       {| ChannelInsert.app_id := Some "app123";
          ChannelInsert.name := Some "production";
          ChannelInsert.created_by := Some "user-alice" |}
     = (Normal (Fixtures.failure "connection refused"),
        [op_upsert "channels"
           [("app_id", "app123"); ("name", "production");
            ("created_by", "user-alice")]
           (Some "app_id, name")]).
Proof.
  split.
  - apply (proj1 (updateOrCreateChannel_validates StoreFixtures.down
                    {| ChannelInsert.app_id := Some "app123";
                       ChannelInsert.name := Some "production";
                       ChannelInsert.created_by := None |})).
    right. right. reflexivity.
  - apply (proj2 (updateOrCreateChannel_validates StoreFixtures.down
                    {| ChannelInsert.app_id := Some "app123";
                       ChannelInsert.name := Some "production";
                       ChannelInsert.created_by := Some "user-alice" |})
             "app123" "production" "user-alice");
      (reflexivity || discriminate).
Defined.

(** X22. [createStripeCustomer] without a default plan.  The customer is
    created at the billing provider first; when the store then has no
    "Solo" plan row (or the query fails), the function throws
    [Error("no default plan")] and nothing is written to the store.  When
    the billing provider itself rejects, that rejection reaches the caller
    and the store is not asked at all. *)
Theorem createStripeCustomer_failures (c : Store) (org : Org.t) :
  (forall customer,
     createCustomer c (Org.management_email org) (Org.created_by org)
       (Org.name org) = Normal customer ->
     data (plans_named c "Solo") = None ->
     createStripeCustomer c org
     = (Throw (Error "no default plan"),
        [op_createCustomer (Org.management_email org) (Org.created_by org)
           (Org.name org);
         op_select "plans" "*" [("name", "Solo")] None]))
  /\ (forall e,
        createCustomer c (Org.management_email org) (Org.created_by org)
          (Org.name org) = Throw e ->
        createStripeCustomer c org
        = (Throw e,
           [op_createCustomer (Org.management_email org)
              (Org.created_by org) (Org.name org)])).
Proof.
  unfold createStripeCustomer, getDefaultPlan, run_await_or_reject. split.
  - intros customer -> Hd. rewrite outcome_bind_await, Hd. reflexivity.
  - intros e ->. reflexivity.
Qed.

Lemma createStripeCustomer_failures_witness :
  createStripeCustomer StoreFixtures.down StoreFixtures.acme
  = (Throw (Error "no default plan"),
     [op_createCustomer "alice@example.org" "user-alice" "Acme";
      op_select "plans" "*" [("name", "Solo")] None]).
Proof.
  apply (proj1 (createStripeCustomer_failures StoreFixtures.down
                  StoreFixtures.acme) {| Customer.id := "cus_1" |});
    reflexivity.
Defined.

(** X23. [createStripeCustomer] with a default plan.  It completes
    normally after four operations in this order: the creation of the
    customer, the query of the "Solo" plan, the insert of the
    [stripe_info] row (the product of the plan, the new customer, a trial
    date 15 days ahead), the update of the organisation's [customer_id].
    The answers of the two writes do not matter: a failed insert neither
    stops the update nor reaches the caller. *)
Theorem createStripeCustomer_writes (c : Store) (org : Org.t)
    (customer : Customer.t) (soloPlan : DefaultPlan.t) :
  createCustomer c (Org.management_email org) (Org.created_by org)
    (Org.name org) = Normal customer ->
  data (plans_named c "Solo") = Some soloPlan ->
  createStripeCustomer c org
  = (Normal tt,
     [op_createCustomer (Org.management_email org) (Org.created_by org)
        (Org.name org);
      op_select "plans" "*" [("name", "Solo")] None;
      op_insert "stripe_info"
        [[("product_id", DefaultPlan.stripe_id soloPlan);
          ("customer_id", Customer.id customer);
          ("trial_at", iso_in_days c 15)]];
      op_update "orgs" [("customer_id", Customer.id customer)]
        [("id", Org.id org)]]).
Proof.
  intros Hc Hd.
  unfold createStripeCustomer, getDefaultPlan, run_await_or_reject.
  rewrite Hc, outcome_bind_await, Hd. reflexivity.
Qed.

Lemma createStripeCustomer_writes_witness :
  error (stripe_info_insert (StoreFixtures.store [])
           [("product_id", "prod_solo"); ("customer_id", "cus_1");
            ("trial_at", "2024-01-16T00:00:00.000Z")]) <> None
  /\ createStripeCustomer (StoreFixtures.store []) StoreFixtures.acme
     = (Normal tt,
        [op_createCustomer "alice@example.org" "user-alice" "Acme";
         op_select "plans" "*" [("name", "Solo")] None;
         op_insert "stripe_info"
           [[("product_id", "prod_solo"); ("customer_id", "cus_1");
             ("trial_at", "2024-01-16T00:00:00.000Z")]];
         op_update "orgs" [("customer_id", "cus_1")] [("id", "org1")]]).
Proof.
  split; [cbn; discriminate |].
  apply (createStripeCustomer_writes (StoreFixtures.store [])
           StoreFixtures.acme {| Customer.id := "cus_1" |}
           {| DefaultPlan.stripe_id := "prod_solo" |}); reflexivity.
Defined.
